(** * The GraphQL request handler of [test_postgres_backend.py]

    The integration test [PostgreSQLBackendTest.test_graphql_server_setup]
    carries, as the text [graphql_server_code], a small HTTP server: a
    [BaseHTTPRequestHandler] subclass [GraphQLHandler] with the methods
    [do_POST] and [do_OPTIONS].  This development embeds that handler and
    proves the properties of its dispatch.  The handler is read as the
    server script the listing spells out: the SQL text of the posts query,
    which the listing writes between triple quotes of its own, is the last
    argument of the command.

    Conventions of the embedding.
    - Python [bytes] and [str] are both Rocq strings; a [str] is held as the
      UTF-8 encoding of its text.  The keywords and every literal of the
      handler are ASCII, for which substring tests on the encoding and on
      the text agree.
    - Python exceptions are values of [exn]; a computation that may raise
      returns [exn + A] (left is the raised exception).
    - The handler runs in the monad [M]: it threads the state of the
      machine outside the handler ([World], changed only by
      [subprocess.run]), the list of commands given to [subprocess.run] and
      the calls made on the response side of the connection.  An exception
      keeps the state reached when it was raised.
    - [json.loads], [json.dumps], [bytes.decode] and [subprocess.run] belong
      to the Python library: the handler is defined over them as Section
      variables, and [Module Ref] instantiates them for running the handler
      on concrete requests. *)

From Stdlib Require Import ZArith List String Ascii Bool Lia DecimalString.
Import ListNotations.
Local Open Scope string_scope.
Local Open Scope Z_scope.
Set Warnings "-register-all".

(** ** Exceptions *)

(** An exception instance: its class name and the text [str(e)] gives.
    Every class met here derives from [Exception]. *)
Inductive exn : Type := Exn (cls : string) (text : string).

Definition str_exn (e : exn) : string :=
  match e with Exn _ t => t end.

Definition TypeError (t : string) : exn := Exn "TypeError" t.
Definition ValueError (t : string) : exn := Exn "ValueError" t.
Definition AttributeError (t : string) : exn := Exn "AttributeError" t.

(** ** JSON values, as [json.loads] builds them *)

(** A [dict] is kept as the list of its items in insertion order (keys are
    distinct); a [float] is identified by its [repr]. *)
Inductive json : Type :=
| JNull
| JBool (b : bool)
| JInt (z : Z)
| JFloat (repr : string)
| JStr (s : string)
| JArr (items : list json)
| JObj (items : list (string * json)).

(** [type(v).__name__] *)
Definition type_name (v : json) : string :=
  match v with
  | JNull => "NoneType"
  | JBool _ => "bool"
  | JInt _ => "int"
  | JFloat _ => "float"
  | JStr _ => "str"
  | JArr _ => "list"
  | JObj _ => "dict"
  end.

(** ** Builtins on strings *)

(** [needle in hay] for two [str]. *)
Fixpoint str_contains (needle hay : string) : bool :=
  String.prefix needle hay ||
  match hay with
  | EmptyString => false
  | String _ rest => str_contains needle rest
  end.

(** The characters [str.isspace] accepts, as the UTF-8 sequences that
    encode them: U+0009..U+000D, U+001C..U+0020, U+0085, U+00A0, U+1680,
    U+2000..U+200A, U+2028, U+2029, U+202F, U+205F, U+3000. *)
Definition space1 (c : ascii) : bool :=
  let n := Z.of_nat (nat_of_ascii c) in
  ((9 <=? n) && (n <=? 13)) || ((28 <=? n) && (n <=? 32)).

Definition space2 (a b : ascii) : bool :=
  (nat_of_ascii a =? 194)%nat &&
  ((nat_of_ascii b =? 133)%nat || (nat_of_ascii b =? 160)%nat).

Definition space3 (a b c : ascii) : bool :=
  let x := Z.of_nat (nat_of_ascii a) in
  let y := Z.of_nat (nat_of_ascii b) in
  let z := Z.of_nat (nat_of_ascii c) in
  ((x =? 225) && (y =? 154) && (z =? 128)) ||
  ((x =? 226) && (y =? 128) &&
   (((128 <=? z) && (z <=? 138)) || (z =? 168) || (z =? 169) || (z =? 175))) ||
  ((x =? 226) && (y =? 129) && (z =? 159)) ||
  ((x =? 227) && (y =? 128) && (z =? 128)).

(** [lstrip]: one leading whitespace character is dropped per unit of
    fuel; with the length of the string for fuel nothing is left to drop
    ([lstrip_fuel_done]). *)
Fixpoint lstrip_fuel (fuel : nat) (s : list ascii) : list ascii :=
  match fuel with
  | O => s
  | S fuel' =>
      match s with
      | a :: t =>
          if space1 a then lstrip_fuel fuel' t
          else match t with
               | b :: t' =>
                   if space2 a b then lstrip_fuel fuel' t'
                   else match t' with
                        | c :: t'' =>
                            if space3 a b c then lstrip_fuel fuel' t'' else s
                        | [] => s
                        end
               | [] => s
               end
      | [] => s
      end
  end.

(** The same from the end of the text, read backwards: the sequences are
    met last byte first. *)
Fixpoint rstrip_rev_fuel (fuel : nat) (s : list ascii) : list ascii :=
  match fuel with
  | O => s
  | S fuel' =>
      match s with
      | c :: t =>
          if space1 c then rstrip_rev_fuel fuel' t
          else match t with
               | b :: t' =>
                   if space2 b c then rstrip_rev_fuel fuel' t'
                   else match t' with
                        | a :: t'' =>
                            if space3 a b c then rstrip_rev_fuel fuel' t''
                            else s
                        | [] => s
                        end
               | [] => s
               end
      | [] => s
      end
  end.

(** [s.strip()] *)
Definition strip (s : string) : string :=
  let l := list_ascii_of_string s in
  let l1 := lstrip_fuel (List.length l) l in
  let r := rstrip_rev_fuel (List.length l1) (rev l1) in
  string_of_list_ascii (rev r).

(** [int(v)] for [v] a [str] or [None]: surrounding whitespace, an optional
    sign, then decimal digits, where single underscores may separate
    digits.  (The limit CPython 3.11 puts on the number of digits is left
    out.) *)
Definition digit_val (c : ascii) : option Z :=
  let n := Z.of_nat (nat_of_ascii c) in
  if (48 <=? n) && (n <=? 57) then Some (n - 48) else None.

Fixpoint int_digits (s : string) (acc : Z) (after_digit : bool) : option Z :=
  match s with
  | EmptyString => if after_digit then Some acc else None
  | String c rest =>
      match digit_val c with
      | Some d => int_digits rest (10 * acc + d) true
      | None =>
          if Ascii.eqb c "_" && after_digit then int_digits rest acc false
          else None
      end
  end.

Definition int_literal (s : string) : option Z :=
  match s with
  | String "-" rest => option_map Z.opp (int_digits rest 0 false)
  | String "+" rest => int_digits rest 0 false
  | _ => int_digits s 0 false
  end.

Definition int (v : option string) : exn + Z :=
  match v with
  | None =>
      inl (TypeError
        "int() argument must be a string, a bytes-like object or a real number, not 'NoneType'")
  | Some s =>
      match int_literal (strip s) with
      | Some z => inr z
      | None =>
          inl (ValueError ("invalid literal for int() with base 10: '" ++ s ++ "'"))
      end
  end.

(** ** Builtins on JSON values *)

(** [d.get(key, default)] on the items of a [dict]. *)
Fixpoint dict_get (d : list (string * json)) (key : string) (default : json) : json :=
  match d with
  | [] => default
  | (k, v) :: rest => if String.eqb k key then v else dict_get rest key default
  end.

(** [x.get(key, default)]: only a [dict] has the method. *)
Definition get (x : json) (key : string) (default : json) : exn + json :=
  match x with
  | JObj d => inr (dict_get d key default)
  | _ => inl (AttributeError
                ("'" ++ type_name x ++ "' object has no attribute 'get'"))
  end.

(** [needle == v] for a [str] needle. *)
Definition str_eq_json (needle : string) (v : json) : bool :=
  match v with
  | JStr s => String.eqb needle s
  | _ => false
  end.

(** [needle in x]: substring of a [str], element of a [list], key of a
    [dict]; the other types are not containers. *)
Definition contains (needle : string) (x : json) : exn + bool :=
  match x with
  | JStr s => inr (str_contains needle s)
  | JArr l => inr (existsb (str_eq_json needle) l)
  | JObj d => inr (existsb (fun kv => String.eqb needle (fst kv)) d)
  | _ => inl (TypeError
                ("argument of type '" ++ type_name x ++ "' is not iterable"))
  end.

(** ** The request and the connection *)

(** The two methods [GraphQLHandler] defines a [do_] method for. *)
Inductive command : Type := POST | OPTIONS.

(** What the handler reads of [self]: [self.path], [self.headers] and the
    bytes [self.rfile] still holds (the end of the string is the end of the
    stream). *)
Record request : Type := mkRequest {
  path : string;
  headers : list (string * string);
  rfile : string
}.

(** ASCII lower case, for header names. *)
Definition lower_ascii (c : ascii) : ascii :=
  let n := nat_of_ascii c in
  if ((65 <=? n) && (n <=? 90))%nat then ascii_of_nat (n + 32) else c.

Fixpoint lower (s : string) : string :=
  match s with
  | EmptyString => EmptyString
  | String c rest => String (lower_ascii c) (lower rest)
  end.

(** [self.headers[name]]: the first header of that name, whatever its
    case, or [None]. *)
Fixpoint headers_getitem (h : list (string * string)) (name : string) : option string :=
  match h with
  | [] => None
  | (k, v) :: rest =>
      if String.eqb (lower k) (lower name) then Some v
      else headers_getitem rest name
  end.

(** [self.rfile.read(n)] on a buffered reader: [n] bytes, or what is left
    before the end of the stream; all of it for [-1]. *)
Definition rfile_read (stream : string) (n : Z) : exn + string :=
  if n <? -1 then inl (ValueError "read length must be non-negative or -1")
  else if n =? -1 then inr stream
  else inr (String.substring 0 (Z.to_nat n) stream).

(** The calls the handler makes on the response side. *)
Inductive event : Type :=
| SendResponse (code : Z)
| SendHeader (keyword value : string)
| EndHeaders
| Write (data : string).

(** [subprocess.CompletedProcess] *)
Record CompletedProcess : Type := mkCompleted {
  returncode : Z;
  stdout : string;
  stderr : string
}.

(** ** The handler monad *)

Section Handler.

(** The machine outside the handler (the database server, the file
    system), and the Python library. *)
Variable World : Type.
Variable subprocess_run : list string -> World -> (exn + CompletedProcess) * World.
Variable bytes_decode : string -> exn + string.
Variable json_loads : string -> exn + json.
Variable json_dumps : json -> string.

Record state : Type := mkState {
  world : World;
  calls : list (list string);
  wfile : list event
}.

Definition M (A : Type) : Type := state -> (exn + A) * state.

Definition ret {A} (a : A) : M A := fun s => (inr a, s).

Definition bind {A B} (m : M A) (f : A -> M B) : M B :=
  fun s =>
    match m s with
    | (inr a, s') => f a s'
    | (inl e, s') => (inl e, s')
    end.

(** [try: body except Exception as e: handler e] *)
Definition try_except {A} (body : M A) (handler : exn -> M A) : M A :=
  fun s =>
    match body s with
    | (inr a, s') => (inr a, s')
    | (inl e, s') => handler e s'
    end.

(** A library call that may raise and touches no state. *)
Definition lift {A} (r : exn + A) : M A := fun s => (r, s).

Notation "x <- m ;; k" := (bind m (fun x => k))
  (at level 61, m at next level, right associativity).
Notation "m ;; k" := (bind m (fun _ => k))
  (at level 61, right associativity).

Definition emit (ev : event) : M unit :=
  fun s => (inr tt, mkState (world s) (calls s) (wfile s ++ [ev])).

Definition send_response (code : Z) : M unit := emit (SendResponse code).
Definition send_header (keyword value : string) : M unit :=
  emit (SendHeader keyword value).
Definition end_headers : M unit := emit EndHeaders.
Definition wfile_write (data : string) : M unit := emit (Write data).

(** [subprocess.run(argv, capture_output=True, text=True)]: the command
    is recorded, the world moves on as the command makes it. *)
Definition run (argv : list string) : M CompletedProcess :=
  fun s =>
    let (r, w') := subprocess_run argv (world s) in
    (r, mkState w' (calls s ++ [argv]) (wfile s)).

(** ** The handler *)

Definition users_argv : list string :=
  ["psql"; "codegen_backend_test"; "-t"; "-c";
   "SELECT json_agg(row_to_json(users)) FROM users;"].

Definition posts_argv : list string :=
  ["psql"; "codegen_backend_test"; "-t"; "-c";
   "SELECT json_agg(
                            json_build_object(
                                'id', p.id,
                                'title', p.title,
                                'content', p.content,
                                'published', p.published,
                                'author', json_build_object('name', u.name, 'email', u.email)
                            )
                        ) FROM posts p JOIN users u ON p.author_id = u.id WHERE p.published = true;"].

(** The dict literals of the handler. *)
Definition data_response (field : string) (records : json) : json :=
  JObj [("data", JObj [(field, records)])].

Definition errors_response (message : string) : json :=
  JObj [("errors", JArr [JObj [("message", JStr message)]])].

Definition do_POST (self : request) : M unit :=
  if String.eqb (path self) "/graphql" then
    content_length <- lift (int (headers_getitem (headers self) "Content-Length")) ;;
    post_data <- lift (rfile_read (rfile self) content_length) ;;
    try_except
      (text <- lift (bytes_decode post_data) ;;
       query_data <- lift (json_loads text) ;;
       query <- lift (get query_data "query" (JStr "")) ;;
       has_users <- lift (contains "users" query) ;;
       response <-
         (if has_users : bool then
            result <- run users_argv ;;
            if returncode result =? 0 then
              let users_data := strip (stdout result) in
              if negb (String.eqb users_data "") && negb (String.eqb users_data "null") then
                users <- lift (json_loads users_data) ;;
                ret (data_response "users" users)
              else
                ret (data_response "users" (JArr []))
            else
              ret (errors_response "Database query failed")
          else
            has_posts <- lift (contains "posts" query) ;;
            if has_posts : bool then
              result <- run posts_argv ;;
              if returncode result =? 0 then
                let posts_data := strip (stdout result) in
                if negb (String.eqb posts_data "") && negb (String.eqb posts_data "null") then
                  posts <- lift (json_loads posts_data) ;;
                  ret (data_response "posts" posts)
                else
                  ret (data_response "posts" (JArr []))
              else
                ret (errors_response "Database query failed")
            else
              ret (errors_response "Unknown query")) ;;
       send_response 200 ;;
       send_header "Content-type" "application/json" ;;
       send_header "Access-Control-Allow-Origin" "*" ;;
       end_headers ;;
       wfile_write (json_dumps response))
      (fun e =>
         send_response 500 ;;
         send_header "Content-type" "application/json" ;;
         end_headers ;;
         let error_response := errors_response (str_exn e) in
         wfile_write (json_dumps error_response))
  else
    send_response 404 ;;
    end_headers.

Definition do_OPTIONS (self : request) : M unit :=
  send_response 200 ;;
  send_header "Access-Control-Allow-Origin" "*" ;;
  send_header "Access-Control-Allow-Methods" "POST, OPTIONS" ;;
  send_header "Access-Control-Allow-Headers" "Content-Type" ;;
  end_headers.

(** ** Serving requests *)

(** [BaseHTTPRequestHandler.handle_one_request] for the two methods the
    class defines. *)
Definition handle (cmd : command) (self : request) : M unit :=
  match cmd with
  | POST => do_POST self
  | OPTIONS => do_OPTIONS self
  end.

(** A request arrives on a connection of its own, on which nothing has
    been written yet. *)
Definition fresh (w : World) : state := mkState w [] [].

(** What a request leaves behind: the exception that left the handler, if
    any, the commands run and the response side of the connection. *)
Record outcome : Type := mkOutcome {
  raised : option exn;
  commands : list (list string);
  response : list event
}.

Definition handle_one_request (cmd : command) (self : request) (w : World)
  : outcome * World :=
  let (r, s) := handle cmd self (fresh w) in
  (mkOutcome (match r with inl e => Some e | inr _ => None end)
             (calls s) (wfile s),
   world s).

(** [server.serve_forever()] over the requests that arrive, one after the
    other. *)
Fixpoint serve_forever (reqs : list (command * request)) (w : World)
  : list outcome * World :=
  match reqs with
  | [] => ([], w)
  | (cmd, self) :: rest =>
      let (o, w') := handle_one_request cmd self w in
      let (os, w'') := serve_forever rest w' in
      (o :: os, w'')
  end.

(** ** Reading the handler's input the way [do_POST] does *)

(** The value bound to [query] when every step up to it succeeds:
    [Content-Length] is an integer, the read succeeds, the bytes decode,
    the text is the JSON of a [dict]. *)
Definition query_of (self : request) : option json :=
  match int (headers_getitem (headers self) "Content-Length") with
  | inr n =>
      match rfile_read (rfile self) n with
      | inr post_data =>
          match bytes_decode post_data with
          | inr text =>
              match json_loads text with
              | inr (JObj d) => Some (dict_get d "query" (JStr ""))
              | _ => None
              end
          | inl _ => None
          end
      | inl _ => None
      end
  | inl _ => None
  end.

End Handler.

Arguments mkState {World}.
Arguments world {World}.
Arguments calls {World}.
Arguments wfile {World}.
Arguments fresh {World}.
Arguments ret {World A}.
Arguments bind {World A B}.
Arguments try_except {World A}.
Arguments lift {World A}.
Arguments emit {World}.
Arguments send_response {World}.
Arguments send_header {World}.
Arguments end_headers {World}.
Arguments wfile_write {World}.

(** ** Reading a response *)

(** The status codes sent, in order. *)
Fixpoint status_codes (evs : list event) : list Z :=
  match evs with
  | [] => []
  | SendResponse code :: rest => code :: status_codes rest
  | _ :: rest => status_codes rest
  end.

(** The bytes of the body: what was written after the headers. *)
Fixpoint body_of (evs : list event) : string :=
  match evs with
  | [] => ""
  | Write data :: rest => data ++ body_of rest
  | _ :: rest => body_of rest
  end.

(** The response of the success path of [do_POST] around a body. *)
Definition ok_response (body : string) : list event :=
  [SendResponse 200;
   SendHeader "Content-type" "application/json";
   SendHeader "Access-Control-Allow-Origin" "*";
   EndHeaders;
   Write body].

(** The response of its [except] clause. *)
Definition error_response_500 (body : string) : list event :=
  [SendResponse 500;
   SendHeader "Content-type" "application/json";
   EndHeaders;
   Write body].

(** The keyword the resolver of [do_POST] stops at for a query text: the
    tests are made in the order of the [if]/[elif] chain. *)
Inductive keyword : Type := Users | Posts.

Definition keyword_of (q : string) : option keyword :=
  if str_contains "users" q then Some Users
  else if str_contains "posts" q then Some Posts
  else None.

Definition template (k : keyword) : list string :=
  match k with
  | Users => users_argv
  | Posts => posts_argv
  end.

Definition field (k : keyword) : string :=
  match k with
  | Users => "users"
  | Posts => "posts"
  end.

(** The same on any value bound to [query]: the two [in] tests, each of
    which may raise. *)
Definition selected (v : json) : exn + option keyword :=
  match contains "users" v with
  | inl e => inl e
  | inr true => inr (Some Users)
  | inr false =>
      match contains "posts" v with
      | inl e => inl e
      | inr true => inr (Some Posts)
      | inr false => inr None
      end
  end.

(** A JSON array. *)
Definition is_list (v : json) : bool :=
  match v with
  | JArr _ => true
  | _ => false
  end.

(** ** Summaries of the handler, for the proofs *)

Section Summaries.

Variable json_loads : string -> exn + json.
Variable json_dumps : json -> string.

(** The value [do_POST] binds to [response] once [psql] has exited with
    [code] and printed [out], or the exception decoding [out] raises. *)
Definition resolved (k : keyword) (code : Z) (out : string) : exn + json :=
  if code =? 0 then
    let data := strip out in
    if negb (String.eqb data "") && negb (String.eqb data "null") then
      match json_loads data with
      | inr records => inr (data_response (field k) records)
      | inl e => inl e
      end
    else inr (data_response (field k) (JArr []))
  else inr (errors_response "Database query failed").

(** What is written for it: the success path for a response, the
    [except] clause for an exception. *)
Definition reply (r : exn + json) : list event :=
  match r with
  | inr resp => ok_response (json_dumps resp)
  | inl e => error_response_500 (json_dumps (errors_response (str_exn e)))
  end.

End Summaries.

Section Envelopes.

Variable World : Type.
Variable subprocess_run : list string -> World -> (exn + CompletedProcess) * World.
Variable json_loads : string -> exn + json.

(** The dicts that [do_POST] hands to [json.dumps] for a request handled
    in world [w]: the data of a keyword, which is the empty list or the
    value decoded from what the command of that keyword printed, or an
    error message. *)
Inductive envelope (w : World) : json -> Prop :=
| envelope_empty (k : keyword) :
    envelope w (data_response (field k) (JArr []))
| envelope_data (k : keyword) (cp : CompletedProcess) (w' : World) (records : json) :
    subprocess_run (template k) w = (inr cp, w') ->
    json_loads (strip (stdout cp)) = inr records ->
    envelope w (data_response (field k) records)
| envelope_errors (message : string) :
    envelope w (errors_response message).

End Envelopes.

(** * A reference Python library

    [Ref] gives the library functions the handler is written over a
    definition that computes, so that the handler can be run on concrete
    requests: a decoder and an encoder for JSON after the [json] module
    (default options), strict UTF-8 decoding, and a machine whose [psql]
    prints what the world holds.  Exception texts follow CPython's where
    they are short; positions are counted in bytes of the encoded text. *)
Module Ref.

Definition code (c : ascii) : Z := Z.of_nat (nat_of_ascii c).
Definition chr (n : Z) : ascii := ascii_of_nat (Z.to_nat n).

Definition dquote : ascii := "034"%char.
Definition backslash : ascii := "092"%char.

(** Writes a text that holds double quotes with apostrophes in their
    place: [dq "{'query': 'x'}"] is the JSON text of the object. *)
Fixpoint dq (s : string) : string :=
  match s with
  | EmptyString => EmptyString
  | String c rest => String (if Ascii.eqb c "'" then dquote else c) (dq rest)
  end.

Definition decimal (z : Z) : string := NilZero.string_of_int (Z.to_int z).

(** *** UTF-8 *)

(** The encoding of a code point (surrogates included, as three bytes). *)
Definition utf8_encode (cp : Z) : string :=
  if cp <? 128 then String (chr cp) ""
  else if cp <? 2048 then
    String (chr (192 + cp / 64)) (String (chr (128 + cp mod 64)) "")
  else if cp <? 65536 then
    String (chr (224 + cp / 4096))
      (String (chr (128 + (cp / 64) mod 64)) (String (chr (128 + cp mod 64)) ""))
  else
    String (chr (240 + cp / 262144))
      (String (chr (128 + (cp / 4096) mod 64))
        (String (chr (128 + (cp / 64) mod 64)) (String (chr (128 + cp mod 64)) ""))).

Definition is_cont (c : ascii) : bool := (128 <=? code c) && (code c <=? 191).

(** The first code point of an encoded text and what follows it. *)
Definition utf8_next (s : string) : option (Z * string) :=
  match s with
  | EmptyString => None
  | String a r =>
      let x := code a in
      if x <? 128 then Some (x, r)
      else if (194 <=? x) && (x <=? 223) then
        match r with
        | String b r1 =>
            if is_cont b then Some ((x - 192) * 64 + (code b - 128), r1) else None
        | _ => None
        end
      else if (224 <=? x) && (x <=? 239) then
        match r with
        | String b (String c r2) =>
            if is_cont b && is_cont c then
              let cp := (x - 224) * 4096 + (code b - 128) * 64 + (code c - 128) in
              if 2048 <=? cp then Some (cp, r2) else None
            else None
        | _ => None
        end
      else if (240 <=? x) && (x <=? 244) then
        match r with
        | String b (String c (String d r3)) =>
            if is_cont b && is_cont c && is_cont d then
              let cp := (x - 240) * 262144 + (code b - 128) * 4096
                        + (code c - 128) * 64 + (code d - 128) in
              if (65536 <=? cp) && (cp <=? 1114111) then Some (cp, r3) else None
            else None
        | _ => None
        end
      else None
  end.

Definition is_surrogate (cp : Z) : bool := (55296 <=? cp) && (cp <=? 57343).

(** What is left of a byte string at its first ill-formed sequence;
    [None] when the whole of it is well-formed UTF-8. *)
Fixpoint utf8_error (fuel : nat) (s : string) : option string :=
  match fuel with
  | O => match s with EmptyString => None | _ => Some s end
  | S fuel' =>
      match s with
      | EmptyString => None
      | _ =>
          match utf8_next s with
          | Some (cp, rest) =>
              if is_surrogate cp then Some s else utf8_error fuel' rest
          | None => Some s
          end
      end
  end.

(** [b.decode('utf-8')]: the text is the byte string itself. *)
Definition bytes_decode (b : string) : exn + string :=
  match utf8_error (String.length b) b with
  | None => inr b
  | Some bad =>
      inl (Exn "UnicodeDecodeError"
             ("'utf-8' codec can't decode bytes in position "
              ++ decimal (Z.of_nat (String.length b - String.length bad))))
  end.

(** *** [json.loads] *)

(** A decoding error: the message and the input left at its position. *)
Definition perr : Type := (string * string)%type.

Definition is_ws (c : ascii) : bool :=
  (code c =? 32) || (code c =? 9) || (code c =? 10) || (code c =? 13).

Fixpoint skip_ws (s : string) : string :=
  match s with
  | String c rest => if is_ws c then skip_ws rest else s
  | EmptyString => s
  end.

Definition hex_val (c : ascii) : option Z :=
  let n := code c in
  if (48 <=? n) && (n <=? 57) then Some (n - 48)
  else if (97 <=? n) && (n <=? 102) then Some (n - 87)
  else if (65 <=? n) && (n <=? 70) then Some (n - 55)
  else None.

(** The four hexadecimal digits of a [\u] escape. *)
Definition hex4 (s : string) : option (Z * string) :=
  match s with
  | String a (String b (String c (String d rest))) =>
      match hex_val a, hex_val b, hex_val c, hex_val d with
      | Some x, Some y, Some z, Some t =>
          Some (((x * 16 + y) * 16 + z) * 16 + t, rest)
      | _, _, _, _ => None
      end
  | _ => None
  end.

Definition unescape (c : ascii) : option ascii :=
  let n := code c in
  if n =? 34 then Some dquote
  else if n =? 92 then Some backslash
  else if n =? 47 then Some "/"%char
  else if n =? 98 then Some (chr 8)
  else if n =? 102 then Some (chr 12)
  else if n =? 110 then Some (chr 10)
  else if n =? 114 then Some (chr 13)
  else if n =? 116 then Some (chr 9)
  else None.

(** A [\u] escape read as [hi]: a low surrogate escape right after a
    high one makes one code point with it. *)
Definition join_surrogates (hi : Z) (rest : string) : Z * string :=
  if (55296 <=? hi) && (hi <=? 56319) then
    match rest with
    | String b (String u rest') =>
        if (code b =? 92) && (code u =? 117) then
          match hex4 rest' with
          | Some (lo, rest'') =>
              if (56320 <=? lo) && (lo <=? 57343)
              then (65536 + ((hi - 55296) * 1024 + (lo - 56320)), rest'')
              else (hi, rest)
          | None => (hi, rest)
          end
        else (hi, rest)
    | _ => (hi, rest)
    end
  else (hi, rest).

(** The text of a string from after its opening quote ([opening] is the
    input at that quote, for the error message). *)
Fixpoint scanstring (fuel : nat) (s opening : string) : perr + (string * string) :=
  match fuel with
  | O => inl ("Unterminated string starting at", opening)
  | S fuel' =>
      match s with
      | EmptyString => inl ("Unterminated string starting at", opening)
      | String c r =>
          if code c =? 34 then inr (EmptyString, r)
          else if code c =? 92 then
            match r with
            | EmptyString => inl ("Unterminated string starting at", opening)
            | String e r' =>
                if code e =? 117 then
                  match hex4 r' with
                  | None => inl ("Invalid \uXXXX escape", s)
                  | Some (hi, r'') =>
                      let (cp, r3) := join_surrogates hi r'' in
                      match scanstring fuel' r3 opening with
                      | inr (text, rest) => inr (utf8_encode cp ++ text, rest)
                      | inl err => inl err
                      end
                  end
                else
                  match unescape e with
                  | None => inl ("Invalid \escape", s)
                  | Some ch =>
                      match scanstring fuel' r' opening with
                      | inr (text, rest) => inr (String ch text, rest)
                      | inl err => inl err
                      end
                  end
            end
          else if code c <? 32 then inl ("Invalid control character at", s)
          else
            match scanstring fuel' r opening with
            | inr (text, rest) => inr (String c text, rest)
            | inl err => inl err
            end
      end
  end.

(** Numbers: an optional minus sign, then zero or a digit string that
    does not start with zero, then an optional fraction (a dot and
    digits) and an optional exponent (e or E, a sign, digits). *)
Definition is_digit (c : ascii) : bool := (48 <=? code c) && (code c <=? 57).

Fixpoint span_digits (s : string) : string * string :=
  match s with
  | String c rest =>
      if is_digit c then let (d, r) := span_digits rest in (String c d, r)
      else (EmptyString, s)
  | EmptyString => (EmptyString, s)
  end.

Definition scan_integer (s : string) : option (string * string) :=
  let (sign, s1) :=
    match s with
    | String c r => if code c =? 45 then ("-", r) else ("", s)
    | EmptyString => ("", s)
    end in
  match s1 with
  | String c r =>
      if code c =? 48 then Some (sign ++ "0", r)
      else if is_digit c then
        let (d, r') := span_digits s1 in Some (sign ++ d, r')
      else None
  | EmptyString => None
  end.

Definition scan_frac (s : string) : string * string :=
  match s with
  | String c r =>
      if code c =? 46 then
        match span_digits r with
        | (EmptyString, _) => (EmptyString, s)
        | (d, r') => (String c d, r')
        end
      else (EmptyString, s)
  | EmptyString => (EmptyString, s)
  end.

Definition scan_exp (s : string) : string * string :=
  match s with
  | String e r =>
      if (code e =? 101) || (code e =? 69) then
        let (sign, r1) :=
          match r with
          | String c r' =>
              if (code c =? 45) || (code c =? 43) then (String c "", r') else ("", r)
          | EmptyString => ("", r)
          end in
        match span_digits r1 with
        | (EmptyString, _) => (EmptyString, s)
        | (d, r2) => (String e (sign ++ d), r2)
        end
      else (EmptyString, s)
  | EmptyString => (EmptyString, s)
  end.

(** An integer literal is an [int]; with a fraction or an exponent the
    number is a [float], kept here as the text of its literal (its
    [repr] when the literal is written the way [repr] writes it). *)
Definition scan_number (s : string) : option (json * string) :=
  match scan_integer s with
  | None => None
  | Some (i, r) =>
      let (f, r1) := scan_frac r in
      let (e, r2) := scan_exp r1 in
      match f, e with
      | EmptyString, EmptyString =>
          match int_literal i with
          | Some z => Some (JInt z, r2)
          | None => None
          end
      | _, _ => Some (JFloat (i ++ f ++ e), r2)
      end
  end.

Definition strip_prefix (p s : string) : option string :=
  if String.prefix p s
  then Some (String.substring (String.length p) (String.length s - String.length p) s)
  else None.

(** [d[key] = v] on the items of a [dict]. *)
Fixpoint dict_set (d : list (string * json)) (key : string) (v : json)
  : list (string * json) :=
  match d with
  | [] => [(key, v)]
  | (k, x) :: rest =>
      if String.eqb k key then (k, v) :: rest else (k, x) :: dict_set rest key v
  end.

(** One JSON value at the head of the input, and what follows it.  A
    unit of fuel is spent per nested value and per item; [json_loads]
    gives twice the length of the input and two. *)
Fixpoint scan_once (fuel : nat) (s : string) : perr + (json * string) :=
  match fuel with
  | O => inl ("maximum recursion depth exceeded", s)
  | S fuel' =>
      match s with
      | EmptyString => inl ("Expecting value", s)
      | String c r =>
          if code c =? 34 then
            match scanstring (String.length r) r s with
            | inr (text, rest) => inr (JStr text, rest)
            | inl err => inl err
            end
          else if code c =? 123 then
            match skip_ws r with
            | String c' r' =>
                if code c' =? 125 then inr (JObj [], r')
                else object_members fuel' (skip_ws r) []
            | EmptyString => object_members fuel' EmptyString []
            end
          else if code c =? 91 then
            match skip_ws r with
            | String c' r' =>
                if code c' =? 93 then inr (JArr [], r')
                else array_items fuel' (skip_ws r) []
            | EmptyString => array_items fuel' EmptyString []
            end
          else
            match strip_prefix "null" s, strip_prefix "true" s, strip_prefix "false" s with
            | Some rest, _, _ => inr (JNull, rest)
            | _, Some rest, _ => inr (JBool true, rest)
            | _, _, Some rest => inr (JBool false, rest)
            | None, None, None =>
                match scan_number s with
                | Some res => inr res
                | None =>
                    match strip_prefix "NaN" s, strip_prefix "Infinity" s,
                          strip_prefix "-Infinity" s with
                    | Some rest, _, _ => inr (JFloat "nan", rest)
                    | _, Some rest, _ => inr (JFloat "inf", rest)
                    | _, _, Some rest => inr (JFloat "-inf", rest)
                    | None, None, None => inl ("Expecting value", s)
                    end
                end
            end
      end
  end

with array_items (fuel : nat) (s : string) (acc : list json) : perr + (json * string) :=
  match fuel with
  | O => inl ("maximum recursion depth exceeded", s)
  | S fuel' =>
      match scan_once fuel' s with
      | inl err => inl err
      | inr (v, r) =>
          match skip_ws r with
          | String c r' =>
              if code c =? 93 then inr (JArr (acc ++ [v]), r')
              else if code c =? 44 then array_items fuel' (skip_ws r') (acc ++ [v])
              else inl ("Expecting ',' delimiter", skip_ws r)
          | EmptyString => inl ("Expecting ',' delimiter", EmptyString)
          end
      end
  end

with object_members (fuel : nat) (s : string) (acc : list (string * json))
  : perr + (json * string) :=
  match fuel with
  | O => inl ("maximum recursion depth exceeded", s)
  | S fuel' =>
      match s with
      | EmptyString => inl ("Expecting property name enclosed in double quotes", s)
      | String q r =>
          if code q =? 34 then
            match scanstring (String.length r) r s with
            | inl err => inl err
            | inr (key, r1) =>
                match skip_ws r1 with
                | EmptyString => inl ("Expecting ':' delimiter", EmptyString)
                | String c r2 =>
                    if code c =? 58 then
                      match scan_once fuel' (skip_ws r2) with
                      | inl err => inl err
                      | inr (v, r3) =>
                          match skip_ws r3 with
                          | String c' r4 =>
                              if code c' =? 125 then inr (JObj (dict_set acc key v), r4)
                              else if code c' =? 44 then
                                object_members fuel' (skip_ws r4) (dict_set acc key v)
                              else inl ("Expecting ',' delimiter", skip_ws r3)
                          | EmptyString => inl ("Expecting ',' delimiter", EmptyString)
                          end
                      end
                    else inl ("Expecting ':' delimiter", skip_ws r1)
                end
            end
          else inl ("Expecting property name enclosed in double quotes", s)
      end
  end.

(** The text of a [JSONDecodeError]: the message, then the line, the
    column and the offset of the position in the document. *)
Fixpoint line_col (s : string) (n : nat) (line col : Z) : Z * Z :=
  match n with
  | O => (line, col)
  | S n' =>
      match s with
      | EmptyString => (line, col)
      | String c rest =>
          if code c =? 10 then line_col rest n' (line + 1) 1
          else line_col rest n' line (col + 1)
      end
  end.

Definition decode_error (doc : string) (err : perr) : exn :=
  let (msg, rest) := err in
  let pos := (String.length doc - String.length rest)%nat in
  let (line, col) := line_col doc pos 1 1 in
  Exn "JSONDecodeError"
    (msg ++ ": line " ++ decimal line ++ " column " ++ decimal col
         ++ " (char " ++ decimal (Z.of_nat pos) ++ ")").

Definition bom : string :=
  String (chr 239) (String (chr 187) (String (chr 191) EmptyString)).

(** [json.loads(s)] for a [str]. *)
Definition json_loads (s : string) : exn + json :=
  if String.prefix bom s then
    inl (decode_error s ("Unexpected UTF-8 BOM (decode using utf-8-sig)", s))
  else
    match scan_once (2 * String.length s + 2) (skip_ws s) with
    | inl err => inl (decode_error s err)
    | inr (v, rest) =>
        match skip_ws rest with
        | EmptyString => inr v
        | extra => inl (decode_error s ("Extra data", extra))
        end
    end.

(** *** [json.dumps] *)

Definition hex_digit (n : Z) : ascii :=
  if n <? 10 then chr (48 + n) else chr (87 + n).

(** [\uXXXX], in lower case. *)
Definition u_escape (n : Z) : string :=
  String backslash (String "u"
    (String (hex_digit (n / 4096)) (String (hex_digit ((n / 256) mod 16))
      (String (hex_digit ((n / 16) mod 16)) (String (hex_digit (n mod 16)) ""))))).

(** The escape of one code point with [ensure_ascii]: the characters
    from the space to the tilde stand for themselves, but for the quote
    and the backslash. *)
Definition escape_char (cp : Z) : string :=
  if cp =? 34 then String backslash (String dquote "")
  else if cp =? 92 then String backslash (String backslash "")
  else if cp =? 10 then String backslash "n"
  else if cp =? 13 then String backslash "r"
  else if cp =? 9 then String backslash "t"
  else if cp =? 12 then String backslash "f"
  else if cp =? 8 then String backslash "b"
  else if (32 <=? cp) && (cp <=? 126) then String (chr cp) ""
  else if cp <? 65536 then u_escape cp
  else
    let v := cp - 65536 in
    u_escape (55296 + v / 1024) ++ u_escape (56320 + v mod 1024).

Fixpoint escape (fuel : nat) (s : string) : string :=
  match fuel with
  | O => EmptyString
  | S fuel' =>
      match s with
      | EmptyString => EmptyString
      | String c rest =>
          match utf8_next s with
          | Some (cp, rest') => escape_char cp ++ escape fuel' rest'
          | None => escape_char (code c) ++ escape fuel' rest
          end
      end
  end.

Definition encode_string (s : string) : string :=
  String dquote (escape (String.length s) s ++ String dquote "").

Fixpoint join (sep : string) (l : list string) : string :=
  match l with
  | [] => ""
  | [x] => x
  | x :: rest => x ++ sep ++ join sep rest
  end.

Definition encode_float (repr : string) : string :=
  if String.eqb repr "nan" then "NaN"
  else if String.eqb repr "inf" then "Infinity"
  else if String.eqb repr "-inf" then "-Infinity"
  else repr.

(** [json.dumps(v)]: the separators are a comma and a colon, each
    followed by a space; the items of a [dict] come in insertion
    order. *)
Fixpoint json_dumps (v : json) : string :=
  match v with
  | JNull => "null"
  | JBool true => "true"
  | JBool false => "false"
  | JInt z => decimal z
  | JFloat r => encode_float r
  | JStr s => encode_string s
  | JArr l => "[" ++ join ", " (map json_dumps l) ++ "]"
  | JObj d =>
      "{" ++ join ", "
               (map (fun kv => match kv with
                               | (k, x) => encode_string k ++ ": " ++ json_dumps x
                               end) d)
          ++ "}"
  end.

(** *** [subprocess.run] *)

(** The machine the server runs on, as far as the handler can tell: what
    [psql] does when it is given each of the two queries.  Running them
    leaves the machine as it was. *)
Record World : Type := mkWorld {
  psql_users : exn + CompletedProcess;
  psql_posts : exn + CompletedProcess
}.

Fixpoint argv_eqb (a b : list string) : bool :=
  match a, b with
  | [], [] => true
  | x :: a', y :: b' => String.eqb x y && argv_eqb a' b'
  | _, _ => false
  end.

Definition subprocess_run (argv : list string) (w : World)
  : (exn + CompletedProcess) * World :=
  if argv_eqb argv users_argv then (psql_users w, w)
  else if argv_eqb argv posts_argv then (psql_posts w, w)
  else (inl (Exn "FileNotFoundError" "[Errno 2] No such file or directory"), w).

(** The handler over this library. *)
Definition do_POST : request -> M World unit :=
  do_POST World subprocess_run bytes_decode json_loads json_dumps.

Definition do_OPTIONS : request -> M World unit := do_OPTIONS World.

Definition serve_forever : list (command * request) -> World -> list outcome * World :=
  serve_forever World subprocess_run bytes_decode json_loads json_dumps.

(** A POST request for [/graphql] with a body and its length. *)
Definition post (target body : string) : request :=
  mkRequest target
    [("Host", "localhost:8080"); ("Content-Type", "application/json");
     ("Content-Length", decimal (Z.of_nat (String.length body)))]
    body.

Definition handle_one_request : command -> request -> World -> outcome * World :=
  handle_one_request World subprocess_run bytes_decode json_loads json_dumps.

Definition query_of : request -> option json := query_of bytes_decode json_loads.

(** A [psql] that prints [out] and exits with [code]. *)
Definition exits (code : Z) (out err : string) : exn + CompletedProcess :=
  inr (mkCompleted code out err).

(** *** Sample requests and worlds *)

(** The two queries the integration test sends. *)
Definition users_request : request :=
  post "/graphql" (dq "{'query': '{ users { id name email } }'}").

Definition posts_request : request :=
  post "/graphql" (dq "{'query': '{ posts { id title author { name } } }'}").

(** A query that names both tables, one that names none, one that names
    one in capitals, and a body without a [query] field. *)
Definition users_posts_request : request :=
  post "/graphql" (dq "{'query': '{ users { id posts { title } } }'}").

Definition unknown_request : request :=
  post "/graphql" (dq "{'query': '{ unknownField }'}").

Definition capital_request : request :=
  post "/graphql" (dq "{'query': '{ Users { id name } }'}").

Definition empty_object_request : request :=
  post "/graphql" "{}".

(** The first request on another path, and without its [Content-Length]. *)
Definition other_path_request : request :=
  post "/api" (dq "{'query': '{ users { id name email } }'}").

Definition no_length_request : request :=
  mkRequest "/graphql"
    [("Host", "localhost:8080"); ("Content-Type", "application/json")]
    (dq "{'query': '{ users { id name email } }'}").

(** The same with a length that is not a number. *)
Definition bad_length_request : request :=
  mkRequest "/graphql"
    [("Host", "localhost:8080"); ("Content-Length", "forty")]
    (dq "{'query': '{ users { id name email } }'}").

(** A body that is GraphQL and not JSON. *)
Definition not_json_request : request :=
  post "/graphql" "{ users { id name email } }".

(** One user and one published post, printed the way [psql -t] prints a
    single value: after a space, before an empty line. *)
Definition users_rows : string :=
  dq " [{'id':1,'email':'admin@codegen.com','name':'Codegen Admin'}]

".

Definition posts_rows : string :=
  dq " [{'id' : 1, 'title' : 'Welcome to Codegen', 'content' : 'This is a test post for the GraphQL API', 'published' : true, 'author' : {'name' : 'Codegen Admin', 'email' : 'admin@codegen.com'}}]

".

Definition seeded : World :=
  mkWorld (exits 0 users_rows "") (exits 0 posts_rows "").

(** The same rows with a notice on the standard error of [psql]. *)
Definition seeded_noisy : World :=
  mkWorld (exits 0 users_rows "NOTICE:  table is being vacuumed")
          (exits 0 " 
" "").

(** Two users in the aligned format of [psql]: the value spans two lines
    and the first ends in a continuation mark. *)
Definition two_users_rows : string :=
  dq " [{'id':1,'name':'Codegen Admin'}, +
  {'id':2,'name':'Developer User'}]

".

Definition seeded_twice : World :=
  mkWorld (exits 0 two_users_rows "") (exits 0 posts_rows "").

(** Empty tables: [json_agg] over no row is NULL, printed as nothing. *)
Definition empty_tables : World :=
  mkWorld (exits 0 " 

" "") (exits 0 " 

" "").

(** The database is missing. *)
Definition no_database : World :=
  let failure :=
    exits 2 "" "psql: error: FATAL:  database codegen_backend_test does not exist" in
  mkWorld failure failure.

(** A [psql] whose answer to the users query is a JSON object. *)
Definition object_output : World :=
  mkWorld (exits 0 (dq " {'count': 2}
") "") (exits 0 " 
" "").

End Ref.

(** ** The shape of a response as the interface documents it *)

Definition has_message (v : json) : bool :=
  match v with
  | JObj [(k, JStr _)] => String.eqb k "message"
  | _ => false
  end.

(** One top-level key: ["data"] over one of the two fields holding a list,
    or ["errors"] over a non-empty list of dicts with a ["message"]
    string. *)
Definition documented_shape (v : json) : bool :=
  match v with
  | JObj [(top, JObj [(name, records)])] =>
      String.eqb top "data" &&
      (String.eqb name "users" || String.eqb name "posts") &&
      is_list records
  | JObj [(top, JArr (e :: es))] =>
      String.eqb top "errors" && forallb has_message (e :: es)
  | _ => false
  end.

(** * More of the handler *)

Section Selection.

Variable bytes_decode : string -> exn + string.
Variable json_loads : string -> exn + json.

(** What the [try] block of [do_POST] makes of the bytes it was given,
    up to the choice of a keyword: the exception that one of the steps
    raises, or the keyword chosen, if any. *)
Definition selection_of (post_data : string) : exn + option keyword :=
  match bytes_decode post_data with
  | inl e => inl e
  | inr text =>
      match json_loads text with
      | inl e => inl e
      | inr query_data =>
          match get query_data "query" (JStr "") with
          | inl e => inl e
          | inr query => selected query
          end
      end
  end.

End Selection.

(** A response as the handler builds it: the status first, then headers,
    the end of the headers, and at most one write of the body. *)
Fixpoint headers_then_body (evs : list event) : bool :=
  match evs with
  | SendHeader _ _ :: rest => headers_then_body rest
  | [EndHeaders] => true
  | [EndHeaders; Write _] => true
  | _ => false
  end.

Definition well_formed_response (evs : list event) : bool :=
  match evs with
  | SendResponse _ :: rest => headers_then_body rest
  | _ => false
  end.

(** A machine on which [psql] is not installed: [subprocess.run] raises. *)
Definition psql_missing : Ref.World :=
  let missing :=
    inl (Exn "FileNotFoundError" "[Errno 2] No such file or directory: 'psql'") in
  Ref.mkWorld missing missing.

(** * The integration test [PostgreSQLBackendTest]

    The class runs shell commands, writes temporary files and starts the
    server above as a process.  The machine it runs on and the Python
    library are a [platform]: each operation takes the world and returns
    its result and the world after it.  The methods run in the monad [T]
    over the state of the tester: the world, [self.test_db],
    [self.results] and the list of the effects made so far, prints
    included.  Every call of [run_command] in the class leaves
    [capture_output] at its default, which the model fixes: with
    [text=True] the output and the error of a completed process are
    [str]. *)

(** What a [subprocess.TimeoutExpired] holds as output: nothing, bytes or
    text. *)
Inductive captured : Type :=
| CapNone
| CapBytes (b : string)
| CapStr (s : string).

(** The ways [subprocess.run(cmd, shell=True, ..., timeout=30)] ends: the
    command exits, the timeout expires, or another exception is raised. *)
Inductive shell_result : Type :=
| Exited (cp : CompletedProcess)
| TimedOut (out err : captured)
| Broke (e : exn).

(** The objects [run_command] returns: the [CompletedProcess], or the
    exception it caught. *)
Inductive run_result : Type :=
| RCompleted (cp : CompletedProcess)
| RCalledProcessError (cp : CompletedProcess)
| RTimeoutExpired (out err : captured).

(** [result.returncode], after which [result.stdout] and [result.stderr]
    are read on the same object: a [TimeoutExpired] has no such
    attribute. *)
Definition completed (result : run_result) : exn + CompletedProcess :=
  match result with
  | RCompleted cp => inr cp
  | RCalledProcessError cp => inr cp
  | RTimeoutExpired _ _ =>
      inl (AttributeError "'TimeoutExpired' object has no attribute 'returncode'")
  end.

(** [result.stdout] *)
Definition result_stdout (result : run_result) : captured :=
  match result with
  | RCompleted cp => CapStr (stdout cp)
  | RCalledProcessError cp => CapStr (stdout cp)
  | RTimeoutExpired out _ => out
  end.

(** The right operand of [needle in x] for a [str] needle: the test
    raises unless [x] is a [str]. *)
Definition str_operand (x : captured) : exn + string :=
  match x with
  | CapStr s => inr s
  | CapBytes _ => inl (TypeError "a bytes-like object is required, not 'str'")
  | CapNone => inl (TypeError "argument of type 'NoneType' is not iterable")
  end.

(** [x[key]] for a [str] key. *)
Fixpoint dict_getitem (d : list (string * json)) (key : string) : exn + json :=
  match d with
  | [] => inl (Exn "KeyError" ("'" ++ key ++ "'"))
  | (k, v) :: rest => if String.eqb k key then inr v else dict_getitem rest key
  end.

Definition getitem (x : json) (key : string) : exn + json :=
  match x with
  | JObj d => dict_getitem d key
  | JArr _ => inl (TypeError "list indices must be integers or slices, not str")
  | JStr _ => inl (TypeError "string indices must be integers, not 'str'")
  | _ => inl (TypeError ("'" ++ type_name x ++ "' object is not subscriptable"))
  end.

(** An item of [self.results]. *)
Record entry : Type := mkEntry {
  test : string;
  success : bool;
  message : string;
  details : string
}.

(** What the tester does to the machine and to its standard output. *)
Inductive effect : Type :=
| Print (text : string)
| Shell (cmd : string)
| TempFile (suffix content : string)
| Unlink (name : string)
| Popen (argv : list string)
| Sleep (seconds : Z)
| Poll (pid : Z)
| Communicate (pid : Z)
| Terminate (pid : Z)
| Wait (pid : Z)
| Clock.

(** [sys.exit(code)] raises [SystemExit]. *)
Definition SystemExit (code : Z) : exn := Exn "SystemExit" (Ref.decimal code).

(** The exit status of the interpreter after [main]. *)
Definition exit_status (r : exn + unit) : Z :=
  match r with
  | inr _ => 0
  | inl (Exn cls text) =>
      if String.eqb cls "SystemExit" && String.eqb text "0" then 0 else 1
  end.

(** A text between double quotes. *)
Definition quoted (s : string) : string :=
  String Ref.dquote (s ++ String Ref.dquote "").

Definition migration_sql : string :=
  "
        -- Migration: Create initial schema
        CREATE TABLE IF NOT EXISTS users (
            id SERIAL PRIMARY KEY,
            email VARCHAR(255) UNIQUE NOT NULL,
            name VARCHAR(255) NOT NULL,
            created_at TIMESTAMP DEFAULT NOW(),
            updated_at TIMESTAMP DEFAULT NOW()
        );
        
        CREATE TABLE IF NOT EXISTS posts (
            id SERIAL PRIMARY KEY,
            title VARCHAR(255) NOT NULL,
            content TEXT,
            author_id INTEGER REFERENCES users(id),
            published BOOLEAN DEFAULT FALSE,
            created_at TIMESTAMP DEFAULT NOW(),
            updated_at TIMESTAMP DEFAULT NOW()
        );
        
        CREATE INDEX IF NOT EXISTS idx_posts_author_id ON posts(author_id);
        CREATE INDEX IF NOT EXISTS idx_posts_published ON posts(published);
        
        -- Insert sample data
        INSERT INTO users (email, name) VALUES 
            ('admin@codegen.com', 'Codegen Admin'),
            ('dev@codegen.com', 'Developer User')
        ON CONFLICT (email) DO NOTHING;
        
        INSERT INTO posts (title, content, author_id, published) VALUES 
            ('Welcome to Codegen', 'This is a test post for the GraphQL API', 1, true),
            ('PostgreSQL Integration', 'Testing database connectivity and migrations', 2, true)
        ON CONFLICT DO NOTHING;
        ".

Definition concurrent_test_sql : string :=
  "
        DO $$
        DECLARE
            i INTEGER;
        BEGIN
            FOR i IN 1..100 LOOP
                INSERT INTO posts (title, content, author_id, published) 
                VALUES ('Performance Test ' || i, 'Content for test post ' || i, 1, true);
            END LOOP;
        END $$;
        ".

(** [test_queries]: the name and the body of each request. *)
Definition test_queries : list (string * string) :=
  [("Users Query", Ref.dq "{'query': '{ users { id name email } }'}");
   ("Posts Query", Ref.dq "{'query': '{ posts { id title author { name } } }'}")].

Section Tester.

Variable W : Type.
Variable Time : Type.

(** The machine and the library.  [os_tempfile suffix content] stands for
    a [NamedTemporaryFile(mode='w', suffix=suffix, delete=False)] written
    and closed, and gives its name; a process is known by its pid;
    [format_2f start stop] is the text of [stop - start] under [.2f]. *)
Record platform : Type := mkPlatform {
  os_shell : string -> W -> shell_result * W;
  os_tempfile : string -> string -> W -> (exn + string) * W;
  os_unlink : string -> W -> (exn + unit) * W;
  os_popen : list string -> W -> (exn + Z) * W;
  os_sleep : Z -> W -> W;
  os_poll : Z -> W -> option Z * W;
  os_communicate : Z -> W -> (exn + string * string) * W;
  os_terminate : Z -> W -> (exn + unit) * W;
  os_wait : Z -> W -> (exn + Z) * W;
  os_time : W -> Time * W;
  sys_executable : string;
  py_decode : string -> exn + string;
  py_loads : string -> exn + json;
  py_str : json -> string;
  format_2f : Time -> Time -> string;
  format_3f : Time -> Time -> string;
  graphql_server_code : string
}.

Variable P : platform.

Record tester : Type := mkTester {
  machine : W;
  test_db : string;
  results : list entry;
  effects : list effect
}.

(** [PostgreSQLBackendTest()] *)
Definition init (w : W) : tester := mkTester w "codegen_backend_test" [] [].

Definition T (A : Type) : Type := tester -> (exn + A) * tester.

Definition t_ret {A} (a : A) : T A := fun t => (inr a, t).

Definition t_raise {A} (e : exn) : T A := fun t => (inl e, t).

Definition t_bind {A B} (m : T A) (f : A -> T B) : T B :=
  fun t =>
    match m t with
    | (inr a, t') => f a t'
    | (inl e, t') => (inl e, t')
    end.

Definition t_lift {A} (r : exn + A) : T A := fun t => (r, t).

(** [try: body finally: final]: the exception of [final], if it raises
    one, takes the place of the outcome of [body]. *)
Definition try_finally {A} (body : T A) (final : T unit) : T A :=
  fun t =>
    let (r, t') := body t in
    match final t' with
    | (inr _, t'') => (r, t'')
    | (inl e, t'') => (inl e, t'')
    end.

(** [try: body except cls: handler], for one class of exceptions. *)
Definition try_except_class {A} (cls : string) (body : T A) (handler : T A) : T A :=
  fun t =>
    match body t with
    | (inl (Exn c text), t') =>
        if String.eqb c cls then handler t' else (inl (Exn c text), t')
    | (inr a, t') => (inr a, t')
    end.

(** [try: body except Exception as e: handler e] *)
Definition try_except_all {A} (body : T A) (handler : exn -> T A) : T A :=
  fun t =>
    match body t with
    | (inl e, t') => handler e t'
    | (inr a, t') => (inr a, t')
    end.

Notation "x <- m ;; k" := (t_bind m (fun x => k))
  (at level 61, m at next level, right associativity).
Notation "m ;; k" := (t_bind m (fun _ => k))
  (at level 61, right associativity).

(** An operation of the platform, recorded as the effect [ev]. *)
Definition act {A} (ev : effect) (op : W -> A * W) : T A :=
  fun t =>
    let (a, w') := op (machine t) in
    (inr a, mkTester w' (test_db t) (results t) (effects t ++ [ev])).

Definition act_exn {A} (ev : effect) (op : W -> (exn + A) * W) : T A :=
  fun t =>
    let (r, w') := op (machine t) in
    (r, mkTester w' (test_db t) (results t) (effects t ++ [ev])).

Definition print (text : string) : T unit :=
  fun t => (inr tt, mkTester (machine t) (test_db t) (results t) (effects t ++ [Print text])).

Definition results_append (e : entry) : T unit :=
  fun t => (inr tt, mkTester (machine t) (test_db t) (results t ++ [e]) (effects t)).

Definition self_test_db : T string := fun t => (inr (test_db t), t).

Definition self_results : T (list entry) := fun t => (inr (results t), t).

Definition log_result (test_name : string) (success : bool) (message details : string)
  : T unit :=
  let status := if success then "✅ PASS" else "❌ FAIL" in
  results_append (mkEntry test_name success message details) ;;
  print (status ++ " " ++ test_name ++ ": " ++ message) ;;
  if negb (String.eqb details "") && negb success then
    print ("   Details: " ++ details)
  else t_ret tt.

Definition run_command (cmd : string) (check : bool) : T run_result :=
  fun t =>
    let (r, w') := os_shell P cmd (machine t) in
    let t' := mkTester w' (test_db t) (results t) (effects t ++ [Shell cmd]) in
    match r with
    | Exited cp =>
        if check && negb (returncode cp =? 0)
        then (inr (RCalledProcessError cp), t')
        else (inr (RCompleted cp), t')
    | TimedOut out err => (inr (RTimeoutExpired out err), t')
    | Broke e => (inl e, t')
    end.

Definition test_postgres_running : T bool :=
  print "
🔍 Testing PostgreSQL connectivity..." ;;
  result <- run_command "pg_isready -h localhost -p 5432" false ;;
  cp <- t_lift (completed result) ;;
  if negb (returncode cp =? 0) then
    log_result "PostgreSQL Service" false "PostgreSQL is not running"
      "Run 'sudo service postgresql start' or './setup_postgres.sh'" ;;
    t_ret false
  else
    log_result "PostgreSQL Service" true
      "PostgreSQL is running and accepting connections" "" ;;
    result <- run_command ("psql -c " ++ quoted "SELECT version();") false ;;
    cp <- t_lift (completed result) ;;
    if negb (returncode cp =? 0) then
      log_result "PostgreSQL Connection" false "Cannot connect to PostgreSQL"
        (stderr cp) ;;
      t_ret false
    else
      log_result "PostgreSQL Connection" true
        "Successfully connected to PostgreSQL" "" ;;
      t_ret true.

Definition test_database_creation : T bool :=
  print "
🗄️ Testing database creation..." ;;
  db <- self_test_db ;;
  run_command ("dropdb " ++ db) false ;;
  result <- run_command ("createdb " ++ db) false ;;
  cp <- t_lift (completed result) ;;
  if negb (returncode cp =? 0) then
    log_result "Database Creation" false "Failed to create test database"
      (stderr cp) ;;
    t_ret false
  else
    log_result "Database Creation" true
      ("Successfully created database '" ++ db ++ "'") "" ;;
    result <- run_command
                ("psql " ++ db ++ " -c " ++ quoted "SELECT current_database();") false ;;
    cp <- t_lift (completed result) ;;
    if negb (returncode cp =? 0) then
      log_result "Database Connection" false "Cannot connect to test database"
        (stderr cp) ;;
      t_ret false
    else
      log_result "Database Connection" true
        ("Successfully connected to '" ++ db ++ "'") "" ;;
      t_ret true.

Definition test_migrations : T bool :=
  print "
🔄 Testing database migrations..." ;;
  migration_file <- act_exn (TempFile ".sql" migration_sql)
                      (os_tempfile P ".sql" migration_sql) ;;
  try_finally
    (db <- self_test_db ;;
     result <- run_command ("psql " ++ db ++ " -f " ++ migration_file) false ;;
     cp <- t_lift (completed result) ;;
     if negb (returncode cp =? 0) then
       log_result "Database Migration" false "Failed to run database migration"
         (stderr cp) ;;
       t_ret false
     else
       log_result "Database Migration" true "Successfully ran database migration" "" ;;
       result <- run_command ("psql " ++ db ++ " -c " ++ quoted "\dt") false ;;
       out <- t_lift (str_operand (result_stdout result)) ;;
       if negb (str_contains "users" out) || negb (str_contains "posts" out) then
         log_result "Migration Verification" false "Tables were not created properly"
           out ;;
         t_ret false
       else
         log_result "Migration Verification" true "Tables created successfully" "" ;;
         result <- run_command
                     ("psql " ++ db ++ " -c " ++ quoted "SELECT COUNT(*) FROM users;")
                     false ;;
         cp <- t_lift (completed result) ;;
         if negb (returncode cp =? 0) || negb (str_contains "2" (stdout cp)) then
           log_result "Sample Data" false "Sample data was not inserted properly"
             (stdout cp) ;;
           t_ret false
         else
           log_result "Sample Data" true "Sample data inserted successfully" "" ;;
           t_ret true)
    (act_exn (Unlink migration_file) (os_unlink P migration_file)).

(** The body of the loop over [test_queries], and the loop. *)
Fixpoint query_loop (queries : list (string * string)) (all_queries_passed : bool)
  : T bool :=
  match queries with
  | [] => t_ret all_queries_passed
  | (name, query) :: rest =>
      result <- run_command
                  ("curl -s -X POST -H 'Content-Type: application/json' -d '"
                   ++ query ++ "' http://localhost:8080/graphql") false ;;
      cp <- t_lift (completed result) ;;
      all_queries_passed <-
        (if negb (returncode cp =? 0) then
           log_result ("GraphQL " ++ name) false "Failed to execute GraphQL query"
             (stderr cp) ;;
           t_ret false
         else
           try_except_class "JSONDecodeError"
             (response <- t_lift (py_loads P (stdout cp)) ;;
              has_errors <- t_lift (contains "errors" response) ;;
              if has_errors : bool then
                errors <- t_lift (getitem response "errors") ;;
                log_result ("GraphQL " ++ name) false "GraphQL query returned errors"
                  (py_str P errors) ;;
                t_ret false
              else
                log_result ("GraphQL " ++ name) true
                  "GraphQL query executed successfully" "" ;;
                t_ret all_queries_passed)
             (log_result ("GraphQL " ++ name) false
                "Invalid JSON response from GraphQL server" (stdout cp) ;;
              t_ret false)) ;;
      query_loop rest all_queries_passed
  end.

Definition test_graphql_server_setup : T bool :=
  print "
🚀 Testing GraphQL server setup..." ;;
  server_file <- act_exn (TempFile ".py" (graphql_server_code P))
                   (os_tempfile P ".py" (graphql_server_code P)) ;;
  fun t =>
    match act_exn (Popen [sys_executable P; server_file])
                  (os_popen P [sys_executable P; server_file]) t with
    | (inl e, t') =>
        match act_exn (Unlink server_file) (os_unlink P server_file) t' with
        | (inr _, t'') => (inl e, t'')
        | (inl e', t'') => (inl e', t'')
        end
    | (inr server_process, t') =>
        try_finally
          (act (Sleep 3) (fun w => (tt, os_sleep P 3 w)) ;;
           exited <- act (Poll server_process) (os_poll P server_process) ;;
           match exited with
           | Some _ =>
               streams <- act_exn (Communicate server_process)
                            (os_communicate P server_process) ;;
               text <- t_lift (py_decode P (snd streams)) ;;
               log_result "GraphQL Server Start" false "GraphQL server failed to start"
                 text ;;
               t_ret false
           | None =>
               log_result "GraphQL Server Start" true
                 "GraphQL server started on port 8080" "" ;;
               query_loop test_queries true
           end)
          (act_exn (Terminate server_process) (os_terminate P server_process) ;;
           act_exn (Wait server_process) (os_wait P server_process) ;;
           act_exn (Unlink server_file) (os_unlink P server_file))
          t'
    end.

Definition test_performance : T bool :=
  print "
⚡ Testing database performance..." ;;
  db <- self_test_db ;;
  start_time <- act Clock (os_time P) ;;
  result <- run_command ("psql " ++ db ++ " -c " ++ quoted concurrent_test_sql) false ;;
  end_time <- act Clock (os_time P) ;;
  cp <- t_lift (completed result) ;;
  if negb (returncode cp =? 0) then
    log_result "Performance Test" false "Failed to run performance test" (stderr cp) ;;
    t_ret false
  else
    log_result "Performance Test" true
      ("Inserted 100 records in " ++ format_2f P start_time end_time ++ " seconds") "" ;;
    start_time <- act Clock (os_time P) ;;
    result <- run_command
                ("psql " ++ db ++ " -c " ++ quoted "SELECT COUNT(*) FROM posts;") false ;;
    end_time <- act Clock (os_time P) ;;
    cp <- t_lift (completed result) ;;
    if negb (returncode cp =? 0) then
      log_result "Query Performance" false "Failed to run query performance test"
        (stderr cp) ;;
      t_ret false
    else
      log_result "Query Performance" true
        ("Counted records in " ++ format_3f P start_time end_time ++ " seconds") "" ;;
      t_ret true.

Definition cleanup : T unit :=
  print "
🧹 Cleaning up test resources..." ;;
  db <- self_test_db ;;
  run_command ("dropdb " ++ db) false ;;
  print ("Dropped test database '" ++ db ++ "'").

(** The loop of [run_all_tests] over the methods: the value a test
    returns is dropped, an exception is logged under the name of the
    method. *)
Fixpoint run_tests (tests : list (string * T bool)) : T unit :=
  match tests with
  | [] => t_ret tt
  | (name, test_method) :: rest =>
      try_except_all (test_method ;; t_ret tt)
        (fun e =>
           log_result name false ("Test failed with exception: " ++ str_exn e) "") ;;
      run_tests rest
  end.

Fixpoint print_summary (rs : list entry) : T unit :=
  match rs with
  | [] => t_ret tt
  | result :: rest =>
      let status := if success result then "✅" else "❌" in
      print (status ++ " " ++ test result) ;;
      print_summary rest
  end.

(** [sum(1 for r in self.results if r["success"])] *)
Definition count_passed (rs : list entry) : Z :=
  Z.of_nat (List.length (filter success rs)).

Definition tests : list (string * T bool) :=
  [("test_postgres_running", test_postgres_running);
   ("test_database_creation", test_database_creation);
   ("test_migrations", test_migrations);
   ("test_graphql_server_setup", test_graphql_server_setup);
   ("test_performance", test_performance)].

Definition run_all_tests : T bool :=
  print "🧪 PostgreSQL Backend Integration Test Suite" ;;
  print "==================================================" ;;
  run_tests tests ;;
  print "
📊 Test Summary" ;;
  print "==============================" ;;
  rs <- self_results ;;
  let passed := count_passed rs in
  let total := Z.of_nat (List.length rs) in
  print_summary rs ;;
  print ("
Results: " ++ Ref.decimal passed ++ "/" ++ Ref.decimal total ++ " tests passed") ;;
  if passed =? total then
    print "🎉 All tests passed! PostgreSQL backend integration is working correctly." ;;
    t_ret true
  else
    print "⚠️  Some tests failed. Check the details above." ;;
    t_ret false.

(** [main()] on a machine: the tester is made, the tests are run and the
    interpreter is asked to exit; the database is dropped on the way
    out. *)
Definition main (w : W) : (exn + unit) * tester :=
  try_finally
    (success <- run_all_tests ;;
     t_raise (SystemExit (if success : bool then 0 else 1)))
    cleanup
    (init w).

End Tester.

Arguments mkTester {W}.
Arguments machine {W}.
Arguments test_db {W}.
Arguments results {W}.
Arguments effects {W}.
Arguments os_shell {W Time}.
Arguments os_tempfile {W Time}.
Arguments os_unlink {W Time}.
Arguments os_popen {W Time}.
Arguments os_sleep {W Time}.
Arguments os_poll {W Time}.
Arguments os_communicate {W Time}.
Arguments os_terminate {W Time}.
Arguments os_wait {W Time}.
Arguments os_time {W Time}.
Arguments sys_executable {W Time}.
Arguments py_decode {W Time}.
Arguments py_loads {W Time}.
Arguments py_str {W Time}.
Arguments format_2f {W Time}.
Arguments format_3f {W Time}.
Arguments graphql_server_code {W Time}.

(** A test method reports what it returns: the entries it adds to
    [self.results] are all successes when it returns [True], and hold a
    failure when it returns [False]. *)
Definition reports {W : Type} (m : T W bool) : Prop :=
  forall t : tester W,
  exists new : list entry,
    results (snd (m t)) = (results t ++ new)%list /\
    (fst (m t) = inr true -> forallb success new = true) /\
    (fst (m t) = inr false -> forallb success new = false).

(** Every method of a list returns [True], each run in the state the one
    before it left. *)
Fixpoint all_return_true {W : Type} (methods : list (string * T W bool)) (t : tester W)
  : Prop :=
  match methods with
  | [] => True
  | (_, m) :: rest => fst (m t) = inr true /\ all_return_true rest (snd (m t))
  end.

(** The texts of a list are printed in that order, whatever else
    happens before, between and after them. *)
Fixpoint printed_in_order (texts : list string) (evs : list effect) : Prop :=
  match texts with
  | [] => True
  | text :: rest =>
      exists before after : list effect,
        evs = (before ++ Print text :: after)%list /\ printed_in_order rest after
  end.

(** The first lines the five tests print. *)
Definition banners : list string :=
  ["
🔍 Testing PostgreSQL connectivity...";
   "
🗄️ Testing database creation...";
   "
🔄 Testing database migrations...";
   "
🚀 Testing GraphQL server setup...";
   "
⚡ Testing database performance..."].

(** The tester after the two lines [run_all_tests] prints first. *)
Definition suite_start {W : Type} (t : tester W) : tester W :=
  mkTester (machine t) (test_db t) (results t)
    (effects t ++ [Print "🧪 PostgreSQL Backend Integration Test Suite";
                   Print "=================================================="]).

(** The effects that stop the server or remove a file. *)
Definition no_cleanup (ev : effect) : bool :=
  match ev with
  | Terminate _ => false
  | Wait _ => false
  | Unlink _ => false
  | _ => true
  end.

(** The tester [t'] comes after [t]: the name of the test database is
    the same and the effects added since are all accepted by [ok]. *)
Definition grows {W : Type} (ok : effect -> bool) (t t' : tester W) : Prop :=
  test_db t' = test_db t /\
  exists more : list effect,
    effects t' = (effects t ++ more)%list /\ forallb ok more = true.

(** A method that has no other effects than those [ok] accepts, and
    leaves [self.test_db] alone. *)
Definition only {W A : Type} (ok : effect -> bool) (m : T W A) : Prop :=
  forall t : tester W, grows ok t (snd (m t)).

Definition any_effect (ev : effect) : bool := true.

(** A method whose first effect is to print [banner]. *)
Definition announces {W A : Type} (banner : string) (m : T W A) : Prop :=
  forall t : tester W,
    exists more : list effect,
      effects (snd (m t)) = (effects t ++ Print banner :: more)%list.

(** The effects other than a shell command. *)
Definition sends_no_query (ev : effect) : bool :=
  match ev with
  | Shell _ => false
  | _ => true
  end.

(** The effects that leave files and processes alone. *)
Definition shell_or_print (ev : effect) : bool :=
  match ev with
  | Shell _ => true
  | Print _ => true
  | _ => false
  end.

(** What a caller can read of the object [run_command] returns. *)
Definition readable (r : exn + run_result) : exn + (exn + CompletedProcess) * captured :=
  match r with
  | inl e => inl e
  | inr result => inr (completed result, result_stdout result)
  end.


(** The platform [P] with a [subprocess.Popen] that raises [e]. *)
Definition without_popen {W Time : Type} (P : platform W Time) (e : exn)
  : platform W Time :=
  mkPlatform W Time
    (os_shell P)
    (os_tempfile P)
    (os_unlink P)
    (fun argv w => (inl e, w))
    (os_sleep P)
    (os_poll P)
    (os_communicate P)
    (os_terminate P)
    (os_wait P)
    (os_time P)
    (sys_executable P)
    (py_decode P)
    (py_loads P)
    (py_str P)
    (format_2f P)
    (format_3f P)
    (graphql_server_code P).

(** * A machine for running the tester

    [Box] is a platform that computes: the world holds the way each shell
    command ends (a command it does not list exits with 0 and prints
    nothing) and whether the server process has exited when it is
    polled.  Temporary files are all named alike, the clock stands
    still, and [str] of a JSON value is written for texts without quotes
    or backslashes. *)
Module Box.

Record World : Type := mkWorld {
  answers : list (string * shell_result);
  server_exit : option Z;
  server_stderr : string
}.

Fixpoint answer (cmd : string) (l : list (string * shell_result)) : shell_result :=
  match l with
  | [] => Exited (mkCompleted 0 "" "")
  | (c, r) :: rest => if String.eqb c cmd then r else answer cmd rest
  end.

(** [str(v)] *)
Fixpoint py_str (v : json) : string :=
  match v with
  | JNull => "None"
  | JBool true => "True"
  | JBool false => "False"
  | JInt z => Ref.decimal z
  | JFloat r => r
  | JStr s => "'" ++ s ++ "'"
  | JArr l => "[" ++ Ref.join ", " (map py_str l) ++ "]"
  | JObj d =>
      "{" ++ Ref.join ", "
               (map (fun kv => match kv with
                               | (k, x) => "'" ++ k ++ "': " ++ py_str x
                               end) d)
          ++ "}"
  end.

Definition platform : platform World Z :=
  mkPlatform World Z
    (fun cmd w => (answer cmd (answers w), w))
    (fun suffix content w => (inr ("/tmp/tmpq7x2" ++ suffix), w))
    (fun name w => (inr tt, w))
    (fun argv w => (inr 4242, w))
    (fun seconds w => w)
    (fun pid w => (server_exit w, w))
    (fun pid w => (inr ("", server_stderr w), w))
    (fun pid w => (inr tt, w))
    (fun pid w => (inr (-15), w))
    (fun w => (0, w))
    "/usr/bin/python3"
    Ref.bytes_decode
    Ref.json_loads
    py_str
    (fun start stop => "0.00")
    (fun start stop => "0.000")
    "import json".

(** The commands of the tests. *)
Definition pg_isready : string := "pg_isready -h localhost -p 5432".
Definition psql_version : string := "psql -c " ++ quoted "SELECT version();".
Definition dropdb : string := "dropdb codegen_backend_test".
Definition createdb : string := "createdb codegen_backend_test".
Definition psql_dt : string := "psql codegen_backend_test -c " ++ quoted "\dt".
Definition psql_count : string :=
  "psql codegen_backend_test -c " ++ quoted "SELECT COUNT(*) FROM users;".
Definition curl (body : string) : string :=
  "curl -s -X POST -H 'Content-Type: application/json' -d '" ++ body
    ++ "' http://localhost:8080/graphql".
Definition curl_users : string :=
  curl (Ref.dq "{'query': '{ users { id name email } }'}").
Definition curl_posts : string :=
  curl (Ref.dq "{'query': '{ posts { id title author { name } } }'}").

Definition exits (code : Z) (out err : string) : shell_result :=
  Exited (mkCompleted code out err).

(** A machine on which every command exits with 0 and prints nothing. *)
Definition quiet : World := mkWorld [] None "".

(** PostgreSQL is not running. *)
Definition postgres_down : World :=
  mkWorld [(pg_isready, exits 2 "localhost:5432 - no response
" "")] None "".

(** [pg_isready] does not return within the 30 seconds. *)
Definition postgres_hangs : World :=
  mkWorld [(pg_isready, TimedOut CapNone CapNone)] None "".

(** The database is left over from an earlier run and cannot be dropped,
    then cannot be created. *)
Definition database_in_use : World :=
  mkWorld [(dropdb, exits 1 "" "dropdb: error: database is being accessed by other users");
           (createdb, exits 1 "" "createdb: error: database already exists")]
          None "".

(** Twelve users in a table that the listing shows, while [psql] exits
    with 1 after the listing. *)
Definition twelve_users : World :=
  mkWorld [(psql_dt, exits 1 " public | posts | table | postgres
 public | users | table | postgres
" "");
           (psql_count, exits 0 "    12
" "")]
          None "".

(** A server that answers both queries with data. *)
Definition server_with_data : World :=
  mkWorld [(psql_dt, exits 0 " public | posts | table | postgres
 public | users | table | postgres
" "");
           (psql_count, exits 0 "     2
" "");
           (curl_users, exits 0 (Ref.dq "{'data': {'users': []}}") "");
           (curl_posts, exits 0 (Ref.dq "{'data': {'posts': []}}") "")]
          None "".

(** A server that answers the users query with a soft error. *)
Definition server_with_errors : World :=
  mkWorld [(curl_users,
            exits 0 (Ref.dq "{'errors': [{'message': 'Database query failed'}]}") "");
           (curl_posts, exits 0 (Ref.dq "{'data': {'posts': []}}") "")]
          None "".

(** A server that has exited by the time it is polled. *)
Definition server_crashed : World :=
  mkWorld [] (Some 1) "OSError: [Errno 98] Address already in use".

(** A first run: there is no database to drop yet. *)
Definition first_run : World :=
  mkWorld [(dropdb,
            exits 1 "" "dropdb: error: database removal failed: ERROR:  database does not exist")]
          None "".

(** The same machine with an interpreter that cannot be started. *)
Definition platform_without_python :=
  without_popen platform
    (Exn "FileNotFoundError" "[Errno 2] No such file or directory: '/usr/bin/python3'").

End Box.

(** * Properties of the builtins *)

(** With the length of the text for fuel, [lstrip_fuel] stops on a text
    that starts with no whitespace character. *)
Lemma lstrip_fuel_done (n : nat) (s : list ascii) :
  (List.length s <= n)%nat ->
  lstrip_fuel 1 (lstrip_fuel n s) = lstrip_fuel n s.
Proof.
  revert s. induction n as [|n IH]; intros s Hlen.
  - destruct s; [reflexivity | cbn in Hlen; lia].
  - destruct s as [|a [|b [|c t]]]; cbn [lstrip_fuel].
    + reflexivity.
    + destruct (space1 a) eqn:Ha.
      * apply IH. cbn in *; lia.
      * cbn [lstrip_fuel]. now rewrite Ha.
    + destruct (space1 a) eqn:Ha.
      * apply IH. cbn in *; lia.
      * destruct (space2 a b) eqn:Hab.
        -- apply IH. cbn in *; lia.
        -- cbn [lstrip_fuel]. now rewrite Ha, Hab.
    + destruct (space1 a) eqn:Ha.
      * apply IH. cbn in *; lia.
      * destruct (space2 a b) eqn:Hab.
        -- apply IH. cbn in *; lia.
        -- destruct (space3 a b c) eqn:Habc.
           ++ apply IH. cbn in *; lia.
           ++ cbn [lstrip_fuel]. now rewrite Ha, Hab, Habc.
Qed.

(** The same at the other end. *)
Lemma rstrip_rev_fuel_done (n : nat) (s : list ascii) :
  (List.length s <= n)%nat ->
  rstrip_rev_fuel 1 (rstrip_rev_fuel n s) = rstrip_rev_fuel n s.
Proof.
  revert s. induction n as [|n IH]; intros s Hlen.
  - destruct s; [reflexivity | cbn in Hlen; lia].
  - destruct s as [|c [|b [|a t]]]; cbn [rstrip_rev_fuel].
    + reflexivity.
    + destruct (space1 c) eqn:Hc.
      * apply IH. cbn in *; lia.
      * cbn [rstrip_rev_fuel]. now rewrite Hc.
    + destruct (space1 c) eqn:Hc.
      * apply IH. cbn in *; lia.
      * destruct (space2 b c) eqn:Hbc.
        -- apply IH. cbn in *; lia.
        -- cbn [rstrip_rev_fuel]. now rewrite Hc, Hbc.
    + destruct (space1 c) eqn:Hc.
      * apply IH. cbn in *; lia.
      * destruct (space2 b c) eqn:Hbc.
        -- apply IH. cbn in *; lia.
        -- destruct (space3 a b c) eqn:Habc.
           ++ apply IH. cbn in *; lia.
           ++ cbn [rstrip_rev_fuel]. now rewrite Hc, Hbc, Habc.
Qed.

(** * Properties of the handler *)

Section HandlerProperties.

Variable World : Type.
Variable subprocess_run : list string -> World -> (exn + CompletedProcess) * World.
Variable bytes_decode : string -> exn + string.
Variable json_loads : string -> exn + json.
Variable json_dumps : json -> string.

(** Unfolding the definitions of the handler; the abbreviations below
    take their names over for the statements. *)
Ltac unfold_handler :=
  unfold do_POST, do_OPTIONS, try_except, bind, lift, run, ret,
    send_response, send_header, end_headers, wfile_write, emit.
Ltac unfold_query_of := unfold query_of.
Ltac unfold_summary := unfold resolved, reply.
Ltac unfold_request := unfold handle_one_request, handle.
Ltac step_serve := cbn [serve_forever map fst snd].

Local Abbreviation do_POST :=
  (do_POST World subprocess_run bytes_decode json_loads json_dumps).
Local Abbreviation do_OPTIONS := (do_OPTIONS World).
Local Abbreviation query_of := (query_of bytes_decode json_loads).
Local Abbreviation handle_one_request :=
  (handle_one_request World subprocess_run bytes_decode json_loads json_dumps).
Local Abbreviation serve_forever :=
  (serve_forever World subprocess_run bytes_decode json_loads json_dumps).
Local Abbreviation resolved := (resolved json_loads).
Local Abbreviation reply := (reply json_dumps).

(** ** Running the handler symbolically *)

(** What [query_of] stands for, step by step. *)
Lemma query_of_inv (self : request) (v : json) :
  query_of self = Some v ->
  exists n post_data text d,
    int (headers_getitem (headers self) "Content-Length") = inr n /\
    rfile_read (rfile self) n = inr post_data /\
    bytes_decode post_data = inr text /\
    json_loads text = inr (JObj d) /\
    dict_get d "query" (JStr "") = v.
Proof.
  unfold_query_of.
  destruct (int _) as [e|n] eqn:Hi; [discriminate|].
  destruct (rfile_read _ n) as [e|post_data] eqn:Hr; [discriminate|].
  destruct (bytes_decode post_data) as [e|text] eqn:Hd; [discriminate|].
  destruct (json_loads text) as [e|[]] eqn:Hl; try discriminate.
  intros [= <-]. exists n, post_data, text, items. auto 10.
Qed.

Lemma selected_text (q : string) : selected (JStr q) = inr (keyword_of q).
Proof.
  unfold selected, keyword_of. cbn [contains].
  destruct (str_contains "users" q); [reflexivity|].
  now destruct (str_contains "posts" q).
Qed.

Lemma selected_inv (v : json) (k : option keyword) :
  selected v = inr k ->
  match k with
  | Some Users => contains "users" v = inr true
  | Some Posts => contains "users" v = inr false /\ contains "posts" v = inr true
  | None => contains "users" v = inr false /\ contains "posts" v = inr false
  end.
Proof.
  unfold selected.
  destruct (contains "users" v) as [e|[]]; [discriminate| |].
  - now intros [= <-].
  - destruct (contains "posts" v) as [e|[]]; [discriminate| |]; now intros [= <-].
Qed.

(** Enters the [try] block of a POST to [/graphql] whose [query] is bound. *)
Ltac enter_try Hp Hq :=
  let n := fresh "n" in
  let pd := fresh "post_data" in
  let text := fresh "text" in
  let d := fresh "d" in
  let Hi := fresh "Hint" in
  let Hrd := fresh "Hread" in
  let Hdec := fresh "Hdecode" in
  let Hl := fresh "Hloads" in
  let Hg := fresh "Hget" in
  destruct (query_of_inv _ _ Hq) as (n & pd & text & d & Hi & Hrd & Hdec & Hl & Hg);
  unfold_handler; rewrite Hp; cbn [String.eqb Ascii.eqb Bool.eqb];
  rewrite Hi, Hrd, Hdec, Hl; cbn [get]; rewrite Hg.

Ltac close_response :=
  cbn [world calls wfile]; unfold ok_response, error_response_500;
  repeat rewrite <- app_assoc; reflexivity.

(** A query that stops at a keyword: the template of the keyword is run
    and the answer is made of the exit code and the output alone. *)
Lemma post_keyword (self : request) (v : json) (k : keyword) (s : state World)
      (cp : CompletedProcess) (w' : World) :
  path self = "/graphql" ->
  query_of self = Some v ->
  selected v = inr (Some k) ->
  subprocess_run (template k) (world s) = (inr cp, w') ->
  do_POST self s =
    (inr tt, mkState w' (calls s ++ [template k])
                     (wfile s ++ reply (resolved k (returncode cp) (stdout cp)))).
Proof.
  intros Hp Hq Hk Hrun. apply selected_inv in Hk.
  enter_try Hp Hq. unfold_summary.
  destruct k; cbn [template field] in *.
  - rewrite Hk, Hrun.
    destruct (returncode cp =? 0); [|close_response].
    destruct (negb _ && negb _); [|close_response].
    destruct (json_loads (strip (stdout cp))); close_response.
  - destruct Hk as [Hu Hk]. rewrite Hu, Hk, Hrun.
    destruct (returncode cp =? 0); [|close_response].
    destruct (negb _ && negb _); [|close_response].
    destruct (json_loads (strip (stdout cp))); close_response.
Qed.

(** When [subprocess.run] itself raises, the [except] clause answers. *)
Lemma post_keyword_raises (self : request) (v : json) (k : keyword) (s : state World)
      (e : exn) (w' : World) :
  path self = "/graphql" ->
  query_of self = Some v ->
  selected v = inr (Some k) ->
  subprocess_run (template k) (world s) = (inl e, w') ->
  do_POST self s =
    (inr tt, mkState w' (calls s ++ [template k]) (wfile s ++ reply (inl e))).
Proof.
  intros Hp Hq Hk Hrun. apply selected_inv in Hk.
  enter_try Hp Hq. unfold_summary.
  destruct k; cbn [template] in *.
  - rewrite Hk, Hrun. close_response.
  - destruct Hk as [Hu Hk]. rewrite Hu, Hk, Hrun. close_response.
Qed.

(** A query that stops at no keyword: nothing is run. *)
Lemma post_unknown (self : request) (v : json) (s : state World) :
  path self = "/graphql" ->
  query_of self = Some v ->
  selected v = inr None ->
  do_POST self s =
    (inr tt, mkState (world s) (calls s)
                     (wfile s ++ ok_response (json_dumps (errors_response "Unknown query")))).
Proof.
  intros Hp Hq Hk. apply selected_inv in Hk. destruct Hk as [Hu Hk].
  enter_try Hp Hq. rewrite Hu, Hk. close_response.
Qed.

(** The cases of [resolved]. *)
Lemma resolved_decoded (k : keyword) (code : Z) (out : string) (records : json) :
  code = 0 -> strip out <> "" -> strip out <> "null" ->
  json_loads (strip out) = inr records ->
  resolved k code out = inr (data_response (field k) records).
Proof.
  intros -> H1 H2 H. unfold_summary. cbn [Z.eqb].
  apply String.eqb_neq in H1, H2. now rewrite H1, H2, H.
Qed.

Lemma resolved_empty (k : keyword) (code : Z) (out : string) :
  code = 0 -> strip out = "" \/ strip out = "null" ->
  resolved k code out = inr (data_response (field k) (JArr [])).
Proof.
  intros -> H. unfold_summary. cbn [Z.eqb].
  now destruct H as [-> | ->].
Qed.

Lemma resolved_failed (k : keyword) (code : Z) (out : string) :
  code <> 0 ->
  resolved k code out = inr (errors_response "Database query failed").
Proof.
  intros H. unfold_summary. apply Z.eqb_neq in H. now rewrite H.
Qed.

Lemma keyword_users (q : string) :
  str_contains "users" q = true -> keyword_of q = Some Users.
Proof. unfold keyword_of. now intros ->. Qed.

Lemma keyword_posts (q : string) :
  str_contains "users" q = false -> str_contains "posts" q = true ->
  keyword_of q = Some Posts.
Proof. unfold keyword_of. now intros -> ->. Qed.

Lemma keyword_none (q : string) :
  str_contains "users" q = false -> str_contains "posts" q = false ->
  keyword_of q = None.
Proof. unfold keyword_of. now intros -> ->. Qed.

(** The answer to a text query that stops at keyword [k], in its two
    successful cases. *)
Lemma post_text_data (self : request) (q : string) (k : keyword) (s : state World)
      (cp : CompletedProcess) (w' : World) :
  path self = "/graphql" ->
  query_of self = Some (JStr q) ->
  keyword_of q = Some k ->
  subprocess_run (template k) (world s) = (inr cp, w') ->
  returncode cp = 0 ->
  (forall records : json,
     strip (stdout cp) <> "" -> strip (stdout cp) <> "null" ->
     json_loads (strip (stdout cp)) = inr records ->
     do_POST self s =
       (inr tt, mkState w' (calls s ++ [template k])
          (wfile s ++ ok_response (json_dumps (data_response (field k) records))))) /\
  (strip (stdout cp) = "" \/ strip (stdout cp) = "null" ->
     do_POST self s =
       (inr tt, mkState w' (calls s ++ [template k])
          (wfile s ++ ok_response (json_dumps (data_response (field k) (JArr [])))))).
Proof.
  intros Hp Hq Hk Hrun Hcode.
  assert (Hsel : selected (JStr q) = inr (Some k)) by now rewrite selected_text, Hk.
  rewrite (post_keyword _ _ _ _ _ _ Hp Hq Hsel Hrun). split.
  - intros records H1 H2 H. now rewrite (resolved_decoded k _ _ records).
  - intros H. now rewrite resolved_empty.
Qed.

(** ** The claims *)

(** C1.  A POST to [/graphql] whose body is the JSON of an object whose
    [query] text contains "users" and not "posts" is answered, when [psql]
    exits with 0, with status 200 and the body
    [{"data": {"users": R}}]: [R] is the value decoded from the stripped
    output when that is neither empty nor [null], and the empty list when
    it is empty or [null]. *)
Theorem users_query_data (self : request) (q : string) (s : state World)
        (cp : CompletedProcess) (w' : World) :
  path self = "/graphql" ->
  query_of self = Some (JStr q) ->
  str_contains "users" q = true ->
  str_contains "posts" q = false ->
  subprocess_run users_argv (world s) = (inr cp, w') ->
  returncode cp = 0 ->
  (forall R : json,
     strip (stdout cp) <> "" -> strip (stdout cp) <> "null" ->
     json_loads (strip (stdout cp)) = inr R ->
     do_POST self s =
       (inr tt, mkState w' (calls s ++ [users_argv])
          (wfile s ++ ok_response (json_dumps (data_response "users" R))))) /\
  (strip (stdout cp) = "" \/ strip (stdout cp) = "null" ->
     do_POST self s =
       (inr tt, mkState w' (calls s ++ [users_argv])
          (wfile s ++ ok_response (json_dumps (data_response "users" (JArr [])))))).
Proof.
  intros Hp Hq Hu _ Hrun Hcode.
  exact (post_text_data self q Users s cp w' Hp Hq (keyword_users q Hu) Hrun Hcode).
Qed.

(** C2, amended.  A POST to [/graphql] whose [query] text contains "posts"
    and does not contain "users" runs the posts template and is answered,
    when [psql] exits with 0, with status 200 and the body
    [{"data": {"posts": R}}], [R] as for users; a query text that contains
    "users" runs the users template and only that one, whether or not it
    contains "posts". *)
Theorem posts_query_data (self : request) (q : string) (s : state World)
        (cp : CompletedProcess) (w' : World) :
  path self = "/graphql" ->
  query_of self = Some (JStr q) ->
  str_contains "posts" q = true ->
  (str_contains "users" q = false ->
   subprocess_run posts_argv (world s) = (inr cp, w') ->
   returncode cp = 0 ->
   (forall R : json,
      strip (stdout cp) <> "" -> strip (stdout cp) <> "null" ->
      json_loads (strip (stdout cp)) = inr R ->
      do_POST self s =
        (inr tt, mkState w' (calls s ++ [posts_argv])
           (wfile s ++ ok_response (json_dumps (data_response "posts" R))))) /\
   (strip (stdout cp) = "" \/ strip (stdout cp) = "null" ->
      do_POST self s =
        (inr tt, mkState w' (calls s ++ [posts_argv])
           (wfile s ++ ok_response (json_dumps (data_response "posts" (JArr []))))))) /\
  (str_contains "users" q = true ->
   calls (snd (do_POST self s)) = (calls s ++ [users_argv])%list).
Proof.
  intros Hp Hq Hposts. split.
  - intros Hu Hrun Hcode.
    exact (post_text_data self q Posts s cp w' Hp Hq (keyword_posts q Hu Hposts) Hrun Hcode).
  - intros Hu.
    assert (Hsel : selected (JStr q) = inr (Some Users))
      by now rewrite selected_text, (keyword_users q Hu).
    destruct (subprocess_run users_argv (world s)) as [[e|cp'] w''] eqn:Hrun.
    + now rewrite (post_keyword_raises _ _ Users _ _ _ Hp Hq Hsel Hrun).
    + now rewrite (post_keyword _ _ Users _ _ _ Hp Hq Hsel Hrun).
Qed.

(** C3, amended.  A POST to a path other than [/graphql] is answered with
    status 404, no header and no body, and nothing is run; an OPTIONS
    request is answered with status 200, the three CORS headers and no
    body, whatever its path. *)
Theorem other_path_not_found (self : request) (s : state World) :
  path self <> "/graphql" ->
  do_POST self s =
    (inr tt, mkState (world s) (calls s) (wfile s ++ [SendResponse 404; EndHeaders])) /\
  do_OPTIONS self s =
    (inr tt, mkState (world s) (calls s)
       (wfile s ++ [SendResponse 200;
                    SendHeader "Access-Control-Allow-Origin" "*";
                    SendHeader "Access-Control-Allow-Methods" "POST, OPTIONS";
                    SendHeader "Access-Control-Allow-Headers" "Content-Type";
                    EndHeaders])).
Proof.
  intros Hp. apply String.eqb_neq in Hp. split.
  - unfold_handler. rewrite Hp. close_response.
  - unfold_handler. close_response.
Qed.

(** C5.  A POST to [/graphql] whose [query] text stops at a keyword is
    answered, when [psql] exits with a code other than 0, with status 200
    and the body [{"errors": [{"message": "Database query failed"}]}],
    whatever [psql] printed on its standard output and error. *)
Theorem backend_failure_reported (self : request) (q : string) (k : keyword)
        (s : state World) (code : Z) (out err : string) (w' : World) :
  path self = "/graphql" ->
  query_of self = Some (JStr q) ->
  keyword_of q = Some k ->
  subprocess_run (template k) (world s) = (inr (mkCompleted code out err), w') ->
  code <> 0 ->
  do_POST self s =
    (inr tt, mkState w' (calls s ++ [template k])
       (wfile s ++ ok_response (json_dumps (errors_response "Database query failed")))).
Proof.
  intros Hp Hq Hk Hrun Hcode.
  assert (Hsel : selected (JStr q) = inr (Some k)) by now rewrite selected_text, Hk.
  rewrite (post_keyword _ _ _ _ _ _ Hp Hq Hsel Hrun).
  cbn [returncode stdout]. now rewrite resolved_failed.
Qed.

(** C6.  A POST to [/graphql] whose body is the JSON of an object whose
    [query] text ([""] when the object has no such field) contains neither
    "users" nor "posts" is answered with status 200 and the body
    [{"errors": [{"message": "Unknown query"}]}]; no command is run and
    the world is left as it was. *)
Theorem unknown_query (self : request) (q : string) (s : state World) :
  path self = "/graphql" ->
  query_of self = Some (JStr q) ->
  str_contains "users" q = false ->
  str_contains "posts" q = false ->
  do_POST self s =
    (inr tt, mkState (world s) (calls s)
       (wfile s ++ ok_response (json_dumps (errors_response "Unknown query")))).
Proof.
  intros Hp Hq Hu Hposts. apply (post_unknown self (JStr q) s Hp Hq).
  now rewrite selected_text, (keyword_none q Hu Hposts).
Qed.

(** The commands a text query makes [do_POST] run, whatever [psql] does. *)
Lemma post_text_calls (self : request) (q : string) (s : state World) :
  path self = "/graphql" ->
  query_of self = Some (JStr q) ->
  calls (snd (do_POST self s)) =
    (calls s ++ match keyword_of q with
                | Some k => [template k]
                | None => []
                end)%list.
Proof.
  intros Hp Hq. pose proof (selected_text q) as Hsel.
  destruct (keyword_of q) as [k|].
  - destruct (subprocess_run (template k) (world s)) as [[e|cp] w'] eqn:Hrun.
    + now rewrite (post_keyword_raises _ _ k _ _ _ Hp Hq Hsel Hrun).
    + now rewrite (post_keyword _ _ k _ _ _ Hp Hq Hsel Hrun).
  - rewrite (post_unknown _ _ _ Hp Hq Hsel). cbn [snd calls]. now rewrite app_nil_r.
Qed.

(** C8.  Two POSTs to [/graphql] whose [query] texts stop at the same
    keyword make the handler run the same commands, in whatever world each
    is handled: the template of the keyword, or nothing when no keyword is
    met.  Nothing of the request enters the command. *)
Theorem backend_command_static (self1 self2 : request) (q1 q2 : string) (w1 w2 : World) :
  path self1 = "/graphql" -> path self2 = "/graphql" ->
  query_of self1 = Some (JStr q1) ->
  query_of self2 = Some (JStr q2) ->
  keyword_of q1 = keyword_of q2 ->
  commands (fst (handle_one_request POST self1 w1)) =
    commands (fst (handle_one_request POST self2 w2)) /\
  commands (fst (handle_one_request POST self1 w1)) =
    match keyword_of q1 with
    | Some k => [template k]
    | None => []
    end.
Proof.
  intros Hp1 Hp2 Hq1 Hq2 Hk.
  assert (H : forall self q w, path self = "/graphql" -> query_of self = Some (JStr q) ->
            commands (fst (handle_one_request POST self w)) =
              match keyword_of q with Some k => [template k] | None => [] end).
  { intros self q w Hp Hq. unfold_request.
    pose proof (post_text_calls self q (fresh w) Hp Hq) as Hc.
    destruct (do_POST self (fresh w)) as [r s']. exact Hc. }
  split.
  - now rewrite (H self1 q1 w1 Hp1 Hq1), (H self2 q2 w2 Hp2 Hq2), Hk.
  - exact (H self1 q1 w1 Hp1 Hq1).
Qed.

(** C10.  The keywords are matched as they are written: the text of a
    query that holds a keyword in another casing (its lower-case form
    contains "users" or "posts") but neither "users" nor "posts" itself
    is answered with [{"errors": [{"message": "Unknown query"}]}]. *)
Theorem keywords_case_sensitive (self : request) (q : string) (s : state World) :
  path self = "/graphql" ->
  query_of self = Some (JStr q) ->
  str_contains "users" (lower q) = true \/ str_contains "posts" (lower q) = true ->
  str_contains "users" q = false ->
  str_contains "posts" q = false ->
  do_POST self s =
    (inr tt, mkState (world s) (calls s)
       (wfile s ++ ok_response (json_dumps (errors_response "Unknown query")))).
Proof.
  intros Hp Hq _ Hu Hposts. apply (post_unknown self (JStr q) s Hp Hq).
  now rewrite selected_text, (keyword_none q Hu Hposts).
Qed.

(** ** Every path of [do_POST] *)

(** Splits the goal along the next test or call of the unfolded handler
    whose result decides the path. *)
Ltac next_case :=
  match goal with
  | |- context [match ?x with _ => _ end] =>
      lazymatch x with
      | context [match _ with _ => _ end] => fail
      | _ => destruct x eqn:?
      end
  end.

Ltac all_paths :=
  unfold_handler;
  repeat (cbv beta iota delta [world calls wfile fst snd]; try next_case).

(** The handler moves the world by the commands it runs and not
    otherwise. *)
Lemma do_POST_world (self : request) (s : state World) :
  world (snd (do_POST self s)) = world s \/
  world (snd (do_POST self s)) = snd (subprocess_run users_argv (world s)) \/
  world (snd (do_POST self s)) = snd (subprocess_run posts_argv (world s)).
Proof. all_paths; auto. Qed.

Lemma do_OPTIONS_world (self : request) (s : state World) :
  world (snd (do_OPTIONS self s)) = world s.
Proof. reflexivity. Qed.

Lemma handle_one_request_world (cmd : command) (self : request) (w : World) :
  snd (handle_one_request cmd self w) = w \/
  snd (handle_one_request cmd self w) = snd (subprocess_run users_argv w) \/
  snd (handle_one_request cmd self w) = snd (subprocess_run posts_argv w).
Proof.
  unfold_request. destruct cmd.
  - pose proof (do_POST_world self (fresh w)) as H.
    destruct (do_POST self (fresh w)) as [r s']. exact H.
  - left. reflexivity.
Qed.

(** Once the header and the body are read, [do_POST] returns without an
    exception after one response, of status 200 or 500. *)
Lemma post_answers_once (self : request) (w : World) (n : Z) (post_data : string) :
  path self = "/graphql" ->
  int (headers_getitem (headers self) "Content-Length") = inr n ->
  rfile_read (rfile self) n = inr post_data ->
  fst (do_POST self (fresh w)) = inr tt /\
  (status_codes (wfile (snd (do_POST self (fresh w)))) = [200] \/
   status_codes (wfile (snd (do_POST self (fresh w)))) = [500]).
Proof.
  intros Hp Hi Hr. unfold_handler. rewrite Hp, Hi, Hr.
  cbn [String.eqb Ascii.eqb Bool.eqb].
  repeat (cbv beta iota delta [world calls wfile fst snd fresh]; try next_case);
    cbn; auto.
Qed.

(** Without a [Content-Length] header the conversion to [int] raises
    before the [try] block is entered: the exception leaves [do_POST] and
    nothing is sent. *)
Lemma post_without_length_raises (self : request) (s : state World) :
  path self = "/graphql" ->
  headers_getitem (headers self) "Content-Length" = None ->
  exists e : exn, do_POST self s = (inl e, s).
Proof.
  intros Hp Hh. unfold_handler. rewrite Hp, Hh. cbn. eauto.
Qed.

(** C7.  The answer to a POST whose [query] text contains "users" is made
    of the request, the exit code and the output of [psql] alone: handled
    in two worlds in which [psql] exits with the same code after the same
    output, the request has the same outcome, body included.  The handler
    keeps nothing from one request to the next: the world after a request
    is the world before it or the one the command it ran left, and when
    running the two templates leaves the world as it was, every request of
    a sequence is answered as if it had come first. *)
Theorem dispatcher_deterministic_stateless :
  (forall (self : request) (q : string) (w1 w2 w1' w2' : World)
          (cp1 cp2 : CompletedProcess),
      path self = "/graphql" ->
      query_of self = Some (JStr q) ->
      str_contains "users" q = true ->
      subprocess_run users_argv w1 = (inr cp1, w1') ->
      subprocess_run users_argv w2 = (inr cp2, w2') ->
      returncode cp1 = returncode cp2 ->
      stdout cp1 = stdout cp2 ->
      fst (handle_one_request POST self w1) = fst (handle_one_request POST self w2) /\
      body_of (response (fst (handle_one_request POST self w1))) =
        body_of (response (fst (handle_one_request POST self w2)))) /\
  (forall (cmd : command) (self : request) (w : World),
      snd (handle_one_request cmd self w) = w \/
      snd (handle_one_request cmd self w) = snd (subprocess_run users_argv w) \/
      snd (handle_one_request cmd self w) = snd (subprocess_run posts_argv w)) /\
  (forall (reqs : list (command * request)) (w : World),
      (forall w0, snd (subprocess_run users_argv w0) = w0) ->
      (forall w0, snd (subprocess_run posts_argv w0) = w0) ->
      serve_forever reqs w =
        (map (fun r => fst (handle_one_request (fst r) (snd r) w)) reqs, w)).
Proof.
  split; [|split].
  - intros self q w1 w2 w1' w2' cp1 cp2 Hp Hq Hu Hr1 Hr2 Hcode Hout.
    assert (Hsel : selected (JStr q) = inr (Some Users))
      by now rewrite selected_text, (keyword_users q Hu).
    assert (E : fst (handle_one_request POST self w1) =
                fst (handle_one_request POST self w2)).
    { unfold_request.
      rewrite (post_keyword self _ Users (fresh w1) cp1 w1' Hp Hq Hsel Hr1).
      rewrite (post_keyword self _ Users (fresh w2) cp2 w2' Hp Hq Hsel Hr2).
      cbn [fst calls wfile fresh]. now rewrite Hcode, Hout. }
    split; [exact E | now rewrite E].
  - exact handle_one_request_world.
  - intros reqs w Husers Hposts.
    induction reqs as [|[cmd self] rest IH]; [reflexivity|].
    step_serve.
    assert (Hw : snd (handle_one_request cmd self w) = w).
    { destruct (handle_one_request_world cmd self w) as [H|[H|H]];
        rewrite H; auto. }
    destruct (handle_one_request cmd self w) as [o w'].
    cbn [fst snd] in *. subst w'. now rewrite IH.
Qed.

(** C9, amended.  Every body [do_POST] writes is the [json.dumps] of a
    dict with one key: either ["data"], over a dict whose one key is
    ["users"] or ["posts"] and whose value is the empty list or the value
    decoded from the output of [psql], or ["errors"], over a list of one
    dict with a ["message"] string. *)
Theorem written_body_envelope (self : request) (w : World) (data : string) :
  In (Write data) (response (fst (handle_one_request POST self w))) ->
  exists v : json,
    data = json_dumps v /\ envelope World subprocess_run json_loads w v.
Proof.
  unfold_request.
  unfold_handler.
  repeat (cbv beta iota delta [world calls wfile fst snd fresh response]; try next_case);
    cbn [app In];
    intros H; repeat (destruct H as [H|H]; try discriminate); try contradiction;
    injection H as <-; eexists; (split; [reflexivity|]).
  all: try apply (envelope_empty _ _ _ _ Users).
  all: try apply (envelope_empty _ _ _ _ Posts).
  all: try apply envelope_errors.
  all: try (eapply (envelope_data _ _ _ _ Users); eassumption).
  all: try (eapply (envelope_data _ _ _ _ Posts); eassumption).
Qed.

(** The value of the data field is a list as soon as what [psql] prints
    for the two templates, when it decodes, decodes to a list. *)
Lemma envelope_documented (w : World) (v : json) :
  (forall k cp w' records,
     subprocess_run (template k) w = (inr cp, w') ->
     json_loads (strip (stdout cp)) = inr records ->
     is_list records = true) ->
  envelope World subprocess_run json_loads w v ->
  documented_shape v = true.
Proof.
  intros Hlist [k | k cp w' records Hrun Hloads | message].
  - now destruct k.
  - pose proof (Hlist k cp w' records Hrun Hloads) as H.
    destruct k; cbn; now rewrite H.
  - reflexivity.
Qed.

End HandlerProperties.

(** * More properties of the handler *)

Section HandlerMore.

Variable World : Type.
Variable subprocess_run : list string -> World -> (exn + CompletedProcess) * World.
Variable bytes_decode : string -> exn + string.
Variable json_loads : string -> exn + json.
Variable json_dumps : json -> string.

Ltac unfold_handler :=
  unfold do_POST, do_OPTIONS, try_except, bind, lift, run, ret,
    send_response, send_header, end_headers, wfile_write, emit.
Ltac unfold_request := unfold handle_one_request, handle.
Ltac unfold_selection := unfold selection_of, query_of.

Local Abbreviation do_POST :=
  (do_POST World subprocess_run bytes_decode json_loads json_dumps).
Local Abbreviation query_of := (query_of bytes_decode json_loads).
Local Abbreviation selection_of := (selection_of bytes_decode json_loads).
Local Abbreviation handle_one_request :=
  (handle_one_request World subprocess_run bytes_decode json_loads json_dumps).

Ltac next_case :=
  match goal with
  | |- context [match ?x with _ => _ end] =>
      lazymatch x with
      | context [match _ with _ => _ end] => fail
      | _ => destruct x eqn:?
      end
  end.

Ltac request_paths :=
  unfold_request; unfold_handler;
  repeat (cbv beta iota delta
            [world calls wfile fst snd fresh response commands raised];
          try next_case).

(** A request is answered once or not at all: either the handler returns
    after exactly one status line, 200, 404 or 500 for a POST and 200
    for an OPTIONS, or an exception leaves it and nothing was sent. *)
Theorem answered_once_or_never (cmd : command) (self : request) (w : World) :
  let o := fst (handle_one_request cmd self w) in
  (raised o = None /\
   (status_codes (response o) = [200] \/ status_codes (response o) = [404] \/
    status_codes (response o) = [500])) \/
  (raised o <> None /\ response o = []).
Proof.
  destruct cmd; cbv zeta.
  - request_paths; cbn;
      first [ left; split; [reflexivity | tauto]
            | right; split; [discriminate | reflexivity] ].
  - left. split; [reflexivity | left; reflexivity].
Qed.

(** Whatever was sent has the order of a response: one status line, the
    headers, the end of the headers, then at most one write. *)
Theorem response_in_order (cmd : command) (self : request) (w : World) :
  response (fst (handle_one_request cmd self w)) = [] \/
  well_formed_response (response (fst (handle_one_request cmd self w))) = true.
Proof.
  destruct cmd.
  - request_paths; cbn; auto.
  - right. reflexivity.
Qed.

(** The steps of [selection_of] on the bytes [do_POST] read, from the
    equations a path of the handler leaves. *)
Lemma selected_of_steps (self : request) (n : Z) (post_data text : string)
      (query_data v : json) (k : option keyword) :
  int (headers_getitem (headers self) "Content-Length") = inr n ->
  rfile_read (rfile self) n = inr post_data ->
  bytes_decode post_data = inr text ->
  json_loads text = inr query_data ->
  get query_data "query" (JStr "") = inr v ->
  selected v = inr k ->
  query_of self = Some v /\ selection_of post_data = inr k.
Proof.
  intros Hi Hr Hd Hl Hg Hs. unfold_selection. rewrite Hi, Hr, Hd, Hl, Hg.
  split; [|exact Hs].
  destruct query_data; try discriminate. cbn in Hg. now injection Hg as ->.
Qed.

Lemma selected_users (v : json) :
  contains "users" v = inr true -> selected v = inr (Some Users).
Proof. unfold selected. now intros ->. Qed.

Lemma selected_posts (v : json) :
  contains "users" v = inr false -> contains "posts" v = inr true ->
  selected v = inr (Some Posts).
Proof. unfold selected. now intros -> ->. Qed.

(** A command is run only for a body that is the JSON of an object whose
    [query] holds a keyword, and then it is the template of that keyword
    and nothing else. *)
Theorem command_needs_keyword (self : request) (w : World) (argv : list string) :
  In argv (commands (fst (handle_one_request POST self w))) ->
  exists (v : json) (k : keyword),
    path self = "/graphql" /\
    query_of self = Some v /\
    selected v = inr (Some k) /\
    commands (fst (handle_one_request POST self w)) = [template k].
Proof.
  request_paths; cbn [app In]; intros Hin; try contradiction.
  all: match goal with
       | Hp : String.eqb (path _) _ = true,
         Hi : int _ = inr ?n, Hr : rfile_read _ ?n = inr ?pd,
         Hd : bytes_decode ?pd = inr ?t, Hl : json_loads ?t = inr ?qd,
         Hg : get ?qd _ _ = inr ?v |- _ =>
           apply String.eqb_eq in Hp; exists v
       end.
  all: match goal with
       | Hu : contains "users" ?v = inr true |- exists k, _ =>
           exists Users; pose proof (selected_users v Hu) as Hsel
       | Hu : contains "users" ?v = inr false,
         Hk : contains "posts" ?v = inr true |- exists k, _ =>
           exists Posts; pose proof (selected_posts v Hu Hk) as Hsel
       end.
  all: match goal with
       | Hi : int (headers_getitem (headers ?r) _) = inr ?n,
         Hr : rfile_read _ ?n = inr ?pd,
         Hd : bytes_decode ?pd = inr ?t, Hl : json_loads ?t = inr ?qd,
         Hg : get ?qd _ _ = inr ?v, Hsel : selected ?v = _ |- _ =>
           destruct (selected_of_steps r n pd t qd v _ Hi Hr Hd Hl Hg Hsel)
             as [Hq _]
       end.
  all: auto.
Qed.

(** The header [Access-Control-Allow-Origin] goes with the answers of
    status 200 and with no other: the 404 and the 500 of [do_POST] do not
    carry it. *)
Theorem allow_origin_only_with_200 (self : request) (w : World) :
  In (SendHeader "Access-Control-Allow-Origin" "*")
     (response (fst (handle_one_request POST self w))) <->
  status_codes (response (fst (handle_one_request POST self w))) = [200].
Proof.
  request_paths; cbn; split; intros H; try reflexivity; try discriminate;
    try tauto;
    repeat (destruct H as [H|H]; try discriminate); contradiction.
Qed.

(** A failure on the way from the bytes read to the choice of a keyword
    (bytes that are not UTF-8, a text that is not JSON, a JSON value that
    is no object, a [query] that is no container) is answered 500 with
    the text of the exception; nothing is run. *)
Theorem request_failure_500 (self : request) (s : state World) (n : Z)
        (post_data : string) (e : exn) :
  path self = "/graphql" ->
  int (headers_getitem (headers self) "Content-Length") = inr n ->
  rfile_read (rfile self) n = inr post_data ->
  selection_of post_data = inl e ->
  do_POST self s =
    (inr tt,
     mkState (world s) (calls s)
       (wfile s ++ error_response_500 (json_dumps (errors_response (str_exn e))))).
Proof.
  intros Hp Hi Hr. unfold_selection. unfold selected. unfold_handler.
  rewrite Hp, Hi, Hr. cbn [String.eqb Ascii.eqb Bool.eqb].
  destruct (bytes_decode post_data) as [e1|text].
  { intros [= ->]. cbn. unfold error_response_500. now repeat rewrite <- app_assoc. }
  destruct (json_loads text) as [e1|query_data].
  { intros [= ->]. cbn. unfold error_response_500. now repeat rewrite <- app_assoc. }
  destruct (get query_data "query" (JStr "")) as [e1|v].
  { intros [= ->]. cbn. unfold error_response_500. now repeat rewrite <- app_assoc. }
  destruct (contains "users" v) as [e1|[]]; try discriminate.
  { intros [= ->]. cbn. unfold error_response_500. now repeat rewrite <- app_assoc. }
  destruct (contains "posts" v) as [e1|[]]; try discriminate.
  intros [= ->]. cbn. unfold error_response_500. now repeat rewrite <- app_assoc.
Qed.

(** An output of [psql] that is not JSON, after an exit with 0, is
    answered 500 with the text of the decoding error; the command has
    been run. *)
Theorem undecodable_output_answer (self : request) (q : string) (k : keyword)
        (s : state World) (cp : CompletedProcess) (w' : World) (e : exn) :
  path self = "/graphql" ->
  query_of self = Some (JStr q) ->
  keyword_of q = Some k ->
  subprocess_run (template k) (world s) = (inr cp, w') ->
  returncode cp = 0 ->
  strip (stdout cp) <> "" -> strip (stdout cp) <> "null" ->
  json_loads (strip (stdout cp)) = inl e ->
  do_POST self s =
    (inr tt,
     mkState w' (calls s ++ [template k])
       (wfile s ++ error_response_500 (json_dumps (errors_response (str_exn e))))).
Proof.
  intros Hp Hq Hk Hrun Hcode H1 H2 He.
  assert (Hsel : selected (JStr q) = inr (Some k)) by now rewrite selected_text, Hk.
  rewrite (post_keyword World subprocess_run bytes_decode json_loads json_dumps
             _ _ _ _ _ _ Hp Hq Hsel Hrun).
  unfold resolved, reply. rewrite Hcode. cbn [Z.eqb].
  apply String.eqb_neq in H1, H2. now rewrite H1, H2, He.
Qed.

(** When [subprocess.run] itself raises (no [psql] on the machine), the
    answer is 500 with the text of that exception. *)
Theorem subprocess_error_answer (self : request) (q : string) (k : keyword)
        (s : state World) (e : exn) (w' : World) :
  path self = "/graphql" ->
  query_of self = Some (JStr q) ->
  keyword_of q = Some k ->
  subprocess_run (template k) (world s) = (inl e, w') ->
  do_POST self s =
    (inr tt,
     mkState w' (calls s ++ [template k])
       (wfile s ++ error_response_500 (json_dumps (errors_response (str_exn e))))).
Proof.
  intros Hp Hq Hk Hrun.
  assert (Hsel : selected (JStr q) = inr (Some k)) by now rewrite selected_text, Hk.
  now rewrite (post_keyword_raises World subprocess_run bytes_decode json_loads
                 json_dumps _ _ _ _ _ _ Hp Hq Hsel Hrun).
Qed.

Lemma substring_prefix (a b : string) :
  String.substring 0 (String.length a) (a ++ b) = a.
Proof.
  induction a as [|c a IH]; cbn.
  - now destruct b.
  - now rewrite IH.
Qed.

(** The handler reads [Content-Length] bytes and no more: what the
    stream holds after the body changes nothing. *)
Theorem bytes_past_length_ignored (target : string) (hs : list (string * string))
        (body extra : string) (s : state World) :
  int (headers_getitem hs "Content-Length") = inr (Z.of_nat (String.length body)) ->
  do_POST (mkRequest target hs (body ++ extra)) s =
    do_POST (mkRequest target hs body) s.
Proof.
  intros Hi. unfold_handler. cbn [path headers rfile]. rewrite Hi.
  destruct (String.eqb target "/graphql"); [|reflexivity].
  unfold rfile_read.
  destruct (Z.of_nat (String.length body) <? -1) eqn:H1;
    [apply Z.ltb_lt in H1; lia|].
  destruct (Z.of_nat (String.length body) =? -1) eqn:H2;
    [apply Z.eqb_eq in H2; lia|].
  rewrite Nat2Z.id, substring_prefix.
  assert (H : String.substring 0 (String.length body) body = body).
  { rewrite <- (substring_prefix body "") at 2.
    f_equal. clear. induction body as [|c b IH]; cbn; [reflexivity | now rewrite IH]. }
  now rewrite H.
Qed.

End HandlerMore.

(** * Properties of the tester *)

Section TesterProperties.

Variable W : Type.
Variable Time : Type.
Variable P : platform W Time.

Ltac unfold_monad :=
  unfold log_result, run_command, print, results_append, self_test_db,
    self_results, act, act_exn, t_bind, t_ret, t_lift, t_raise, try_finally,
    try_except_class, try_except_all.
Ltac unfold_running := unfold test_postgres_running.
Ltac unfold_creation := unfold test_database_creation.
Ltac unfold_migrations := unfold test_migrations.

Local Abbreviation run_command := (run_command W Time P).
Local Abbreviation log_result := (@log_result W).
Local Abbreviation test_postgres_running := (test_postgres_running W Time P).
Local Abbreviation test_database_creation := (test_database_creation W Time P).
Local Abbreviation test_migrations := (test_migrations W Time P).

Ltac next_case :=
  match goal with
  | |- context [match ?x with _ => _ end] =>
      lazymatch x with
      | context [match _ with _ => _ end] => fail
      | _ => destruct x eqn:?
      end
  end.

Ltac step :=
  cbv beta iota delta [machine test_db results effects fst snd];
  cbn [negb andb orb Z.eqb String.eqb Ascii.eqb Bool.eqb].

Ltac tester_paths :=
  repeat (cbv beta iota delta [machine test_db results effects fst snd];
          try next_case).

(** ** [run_command] *)

(** [run_command] returns the exception of a failed command the way it
    returns a completed process: with [check=True] the caller reads the
    same exit code, output and error as with [check=False], and the
    machine is left the same. *)
Theorem run_command_check_inert (cmd : string) (t : tester W) :
  readable (fst (run_command cmd true t)) = readable (fst (run_command cmd false t)) /\
  snd (run_command cmd true t) = snd (run_command cmd false t).
Proof.
  unfold_monad. destruct (os_shell P cmd (machine t)) as [[cp|out err|e] w'].
  - cbn [andb]. destruct (negb (returncode cp =? 0)); split; reflexivity.
  - split; reflexivity.
  - split; reflexivity.
Qed.

(** [run_command] raises only what [subprocess.run] raises besides
    [CalledProcessError] and [TimeoutExpired]: an exit with any code and
    a timeout are returned. *)
Theorem run_command_raises_iff (cmd : string) (check : bool) (t : tester W) (e : exn) :
  fst (run_command cmd check t) = inl e <->
  fst (os_shell P cmd (machine t)) = Broke e.
Proof.
  unfold_monad. destruct (os_shell P cmd (machine t)) as [[cp|out err|e'] w'];
    cbn [fst].
  - destruct (check && negb (returncode cp =? 0)); split; discriminate.
  - split; discriminate.
  - split; intros [= ->]; reflexivity.
Qed.

(** ** [test_postgres_running] *)

(** The test returns [True] exactly when [pg_isready] and then [psql]
    exit with 0. *)
Theorem postgres_running_true_iff (t : tester W) :
  fst (test_postgres_running t) = inr true <->
  exists cp1 w1 cp2 w2,
    os_shell P "pg_isready -h localhost -p 5432" (machine t) = (Exited cp1, w1) /\
    returncode cp1 = 0 /\
    os_shell P ("psql -c " ++ quoted "SELECT version();") w1 = (Exited cp2, w2) /\
    returncode cp2 = 0.
Proof.
  split.
  - unfold_running. unfold_monad. unfold completed. tester_paths;
      try discriminate; intros _.
    repeat match goal with
           | H : negb (_ =? 0) = false |- _ =>
               apply negb_false_iff, Z.eqb_eq in H
           end.
    eauto 10.
  - intros (cp1 & w1 & cp2 & w2 & H1 & Hc1 & H2 & Hc2).
    destruct t as [w db rs evs]. cbn [machine] in H1.
    unfold_running. unfold_monad. step. rewrite H1.
    step. unfold completed. rewrite Hc1. step. rewrite H2.
    step. rewrite Hc2. reflexivity.
Qed.

(** When [pg_isready] exits with another code the test logs one
    failure with the hint, returns [False] and does not run [psql]. *)
Theorem postgres_down_stops_test (t : tester W) (cp : CompletedProcess) (w1 : W) :
  os_shell P "pg_isready -h localhost -p 5432" (machine t) = (Exited cp, w1) ->
  returncode cp <> 0 ->
  test_postgres_running t =
    (inr false,
     mkTester w1 (test_db t)
       (results t ++
        [mkEntry "PostgreSQL Service" false "PostgreSQL is not running"
           "Run 'sudo service postgresql start' or './setup_postgres.sh'"])
       (effects t ++
        [Print "
🔍 Testing PostgreSQL connectivity...";
         Shell "pg_isready -h localhost -p 5432";
         Print "❌ FAIL PostgreSQL Service: PostgreSQL is not running";
         Print "   Details: Run 'sudo service postgresql start' or './setup_postgres.sh'"])).
Proof.
  intros H1 Hc. apply Z.eqb_neq in Hc.
  destruct t as [w db rs evs]. cbn [machine test_db results effects] in *.
  unfold_running. unfold_monad. step. rewrite H1.
  step. unfold completed. rewrite Hc. step. cbn [negb andb String.eqb].
  step. now repeat rewrite <- app_assoc.
Qed.

(** ** [test_database_creation] *)

(** However [dropdb] ends (any exit code, a timeout), the test goes on:
    it returns [True] exactly when [createdb] and then [psql] exit with
    0. *)
Theorem database_creation_true_iff (t : tester W) (r0 : shell_result) (w0 : W) :
  os_shell P ("dropdb " ++ test_db t) (machine t) = (r0, w0) ->
  (forall e, r0 <> Broke e) ->
  (fst (test_database_creation t) = inr true <->
   exists cp1 w1 cp2 w2,
     os_shell P ("createdb " ++ test_db t) w0 = (Exited cp1, w1) /\
     returncode cp1 = 0 /\
     os_shell P ("psql " ++ test_db t ++ " -c " ++ quoted "SELECT current_database();")
       w1 = (Exited cp2, w2) /\
     returncode cp2 = 0).
Proof.
  intros H0 Hr0. destruct t as [w db rs evs].
  cbn [machine test_db results effects] in *.
  unfold_creation. unfold_monad. step. rewrite H0.
  destruct r0 as [cp0|out0 err0|e0]; [| |now destruct (Hr0 e0)].
  all: split;
    [ unfold completed; tester_paths; try discriminate; intros _;
      repeat match goal with
             | H : negb (_ =? 0) = false |- _ =>
                 apply negb_false_iff, Z.eqb_eq in H
             end;
      solve [eauto 10]
    | intros (cp1 & w1 & cp2 & w2 & H1 & Hc1 & H2 & Hc2);
      step; rewrite H1; step; unfold completed; rewrite Hc1; step;
      rewrite H2; step; rewrite Hc2; reflexivity ].
Qed.

(** ** [test_migrations] *)

(** Once the migration file is written, it is removed on every way out
    of the test, exceptions included: the last effect of the test is the
    [os.unlink] of that file, and between the two the test only runs
    commands and prints. *)
Theorem migration_file_unlinked (t : tester W) (name : string) (w1 : W) :
  os_tempfile P ".sql" migration_sql (machine t) = (inr name, w1) ->
  exists mid : list effect,
    effects (snd (test_migrations t)) =
      (effects t ++
       [Print "
🔄 Testing database migrations..."; TempFile ".sql" migration_sql]
       ++ mid ++ [Unlink name])%list /\
    forallb shell_or_print mid = true.
Proof.
  intros Ht. destruct t as [w db rs evs].
  cbn [machine test_db results effects] in *.
  unfold_migrations. unfold_monad. step. rewrite Ht.
  unfold completed, str_operand, result_stdout.
  tester_paths; cbn [snd effects]; repeat rewrite <- app_assoc; cbn [app].
  all: match goal with
       | |- exists mid, (?a ++ _ :: _ :: ?l)%list = _ /\ _ =>
           exists (removelast l); split; reflexivity
       end.
Qed.

(** The checks of the migration are loose: the exit code of the table
    listing is not read, and any count whose text holds a 2 passes.  When
    the migration exits with 0, the listing prints both table names and
    the count exits with 0 after a text that contains "2", the test
    returns [True]. *)
Theorem migrations_pass (t : tester W) (name : string) (w1 w2 w3 w4 w5 : W)
        (cp1 cp2 cp3 : CompletedProcess) :
  os_tempfile P ".sql" migration_sql (machine t) = (inr name, w1) ->
  os_shell P ("psql " ++ test_db t ++ " -f " ++ name) w1 = (Exited cp1, w2) ->
  returncode cp1 = 0 ->
  os_shell P ("psql " ++ test_db t ++ " -c " ++ quoted "\dt") w2 = (Exited cp2, w3) ->
  str_contains "users" (stdout cp2) = true ->
  str_contains "posts" (stdout cp2) = true ->
  os_shell P ("psql " ++ test_db t ++ " -c " ++ quoted "SELECT COUNT(*) FROM users;") w3
    = (Exited cp3, w4) ->
  returncode cp3 = 0 ->
  str_contains "2" (stdout cp3) = true ->
  os_unlink P name w4 = (inr tt, w5) ->
  fst (test_migrations t) = inr true /\
  results (snd (test_migrations t)) =
    (results t ++
     [mkEntry "Database Migration" true "Successfully ran database migration" "";
      mkEntry "Migration Verification" true "Tables created successfully" "";
      mkEntry "Sample Data" true "Sample data inserted successfully" ""])%list.
Proof.
  intros Ht H1 Hc1 H2 Hu Hp H3 Hc3 Hn Hun. destruct t as [w db rs evs].
  cbn [machine test_db results effects] in *.
  unfold_migrations. unfold_monad. step. rewrite Ht. step. rewrite H1.
  step. unfold completed. rewrite Hc1. step. rewrite H2.
  step. unfold str_operand, result_stdout. step. rewrite Hu, Hp. step. rewrite H3.
  step. rewrite Hc3, Hn. step. rewrite Hun. step.
  split; [reflexivity | now repeat rewrite <- app_assoc].
Qed.

(** ** [run_all_tests] *)

Ltac unfold_loop := unfold query_loop; fold (query_loop W Time P).
Ltac unfold_graphql := unfold test_graphql_server_setup.
Ltac unfold_performance := unfold test_performance.
Ltac unfold_run_tests := unfold run_tests; fold (run_tests W).
Ltac unfold_suite := unfold run_all_tests.
Ltac unfold_cleanup := unfold cleanup.
Ltac unfold_main := unfold main.

Local Abbreviation query_loop := (query_loop W Time P).
Local Abbreviation test_graphql_server_setup := (test_graphql_server_setup W Time P).
Local Abbreviation test_performance := (test_performance W Time P).
Local Abbreviation run_tests := (run_tests W).
Local Abbreviation tests := (tests W Time P).
Local Abbreviation run_all_tests := (run_all_tests W Time P).
Local Abbreviation cleanup := (cleanup W Time P).
Local Abbreviation main := (main W Time P).

Ltac paths_keep :=
  repeat (cbv beta iota; cbn [machine test_db results effects]; try next_case).

(** Closes a path of a test for [reports]: the new entries are read off
    the final list. *)
Ltac close_report :=
  cbn [fst snd results]; repeat rewrite <- app_assoc; cbn [app];
  first
    [ exists []; split; [now rewrite app_nil_r | split; discriminate]
    | eexists; split; [reflexivity | split; (discriminate || reflexivity)] ].

Lemma running_reports : reports test_postgres_running.
Proof.
  intros [w db rs evs]. unfold_running. unfold_monad. unfold completed.
  tester_paths; close_report.
Qed.

Lemma creation_reports : reports test_database_creation.
Proof.
  intros [w db rs evs]. unfold_creation. unfold_monad. unfold completed.
  tester_paths; close_report.
Qed.

Lemma migrations_reports : reports test_migrations.
Proof.
  intros [w db rs evs]. unfold_migrations. unfold_monad.
  unfold completed, str_operand, result_stdout.
  tester_paths; close_report.
Qed.

Lemma performance_reports : reports test_performance.
Proof.
  intros [w db rs evs]. unfold_performance. unfold_monad. unfold completed.
  tester_paths; close_report.
Qed.

(** The loop over the queries: it returns [True] only if it was [True]
    before and every entry it added is a success. *)
Lemma query_loop_reports (queries : list (string * string)) :
  forall (acc : bool) (t : tester W),
  exists new : list entry,
    results (snd (query_loop queries acc t)) = (results t ++ new)%list /\
    (fst (query_loop queries acc t) = inr true ->
     acc = true /\ forallb success new = true) /\
    (fst (query_loop queries acc t) = inr false ->
     acc = false \/ forallb success new = false).
Proof.
  induction queries as [|[name query] rest IH]; intros acc [w db rs evs].
  - exists []. cbn. rewrite app_nil_r. split; [reflexivity|].
    split; [now intros [= ->] | intros [= ->]; now left].
  - unfold_loop. unfold_monad. unfold completed.
    paths_keep.
    all: try (cbn [fst snd results]; first
      [ exists []; split; [now rewrite app_nil_r | split; discriminate]
      | eexists; split; [reflexivity | split; discriminate] ]).
    all: match goal with
         | |- context [query_loop _ ?a ?t'] =>
             destruct (IH a t') as (new & Hres & Htrue & Hfalse);
             rewrite Hres; cbn [results]; rewrite <- app_assoc;
             eexists; split; [reflexivity|]; cbn [app forallb success andb]
         end.
    all: split; intros H.
    all: first [ exact (Htrue H) | exact (Hfalse H)
               | destruct (Htrue H); discriminate
               | right; reflexivity ].
Qed.

Lemma graphql_reports : reports test_graphql_server_setup.
Proof.
  intros [w db rs evs]. unfold_graphql. unfold_monad.
  repeat (cbv beta iota; cbn [machine test_db results effects fst snd];
          try next_case).
  all: try close_report.
  all: match goal with
       | Hq : query_loop _ _ ?T = (_, _) |- _ =>
           destruct (query_loop_reports test_queries true T)
             as (new & Hres & Htrue & Hfalse);
           rewrite Hq in Hres, Htrue, Hfalse;
           cbn [fst snd results] in Hres, Htrue, Hfalse
       end.
  all: rewrite Hres, <- app_assoc; eexists; (split; [reflexivity|]).
  all: cbn [app forallb success andb]; split; intros H.
  all: first [ discriminate H
             | exact (proj2 (Htrue H))
             | destruct (Hfalse H) as [?|?]; [discriminate | assumption] ].
Qed.

(** The loop over the methods never raises, and the entries it leaves
    are all successes exactly when every method returned [True]. *)
Lemma run_tests_verdict (methods : list (string * T W bool)) :
  Forall (fun nm => reports (snd nm)) methods ->
  forall t : tester W,
  exists new : list entry,
    fst (run_tests methods t) = inr tt /\
    results (snd (run_tests methods t)) = (results t ++ new)%list /\
    (forallb success new = true <-> all_return_true methods t).
Proof.
  induction 1 as [|[name m] rest Hm _ IH]; intros t.
  - exists []. cbn. rewrite app_nil_r. intuition.
  - cbn [snd] in Hm. destruct (Hm t) as (new1 & Hres1 & Htrue1 & Hfalse1).
    unfold_run_tests. unfold_monad. cbn [all_return_true].
    destruct (m t) as [[e|[]] t1] eqn:Hmt; cbn [fst snd] in *.
    + cbv beta iota.
      cbn [negb andb String.eqb Ascii.eqb Bool.eqb machine test_db results effects].
      cbv beta iota.
      match goal with
      | |- context [run_tests rest ?T] =>
          destruct (IH T) as (new2 & Hok & Hres2 & Hiff)
      end.
      cbn [results] in Hres2.
      eexists. split; [exact Hok|]. split.
      * rewrite Hres2, Hres1. repeat rewrite <- app_assoc. reflexivity.
      * rewrite forallb_app. cbn [app forallb success andb].
        rewrite andb_false_r. split; [discriminate | intros [? _]; discriminate].
    + destruct (IH t1) as (new2 & Hok & Hres2 & Hiff).
      eexists. split; [exact Hok|]. split.
      * rewrite Hres2, Hres1. rewrite <- app_assoc. reflexivity.
      * rewrite forallb_app, (Htrue1 eq_refl). cbn [andb].
        rewrite Hiff. intuition.
    + destruct (IH t1) as (new2 & Hok & Hres2 & Hiff).
      eexists. split; [exact Hok|]. split.
      * rewrite Hres2, Hres1. rewrite <- app_assoc. reflexivity.
      * rewrite forallb_app, (Hfalse1 eq_refl). cbn [andb].
        split; [discriminate | intros [? _]; discriminate].
Qed.

Lemma tests_report : Forall (fun nm => reports (snd nm)) tests.
Proof.
  repeat constructor; cbn [snd].
  - exact running_reports.
  - exact creation_reports.
  - exact migrations_reports.
  - exact graphql_reports.
  - exact performance_reports.
Qed.

Lemma count_passed_all (rs : list entry) :
  (count_passed rs =? Z.of_nat (List.length rs)) = forallb success rs.
Proof.
  unfold count_passed.
  assert (H : (List.length (filter success rs) <= List.length rs)%nat)
    by apply filter_length_le.
  induction rs as [|r rs IH]; [reflexivity|].
  cbn [filter forallb List.length] in *. destruct (success r); cbn [andb List.length] in *.
  - rewrite <- IH by lia. clear.
    destruct (Z.eqb_spec (Z.of_nat (List.length (filter success rs)))
                         (Z.of_nat (List.length rs)));
      [apply Z.eqb_eq | apply Z.eqb_neq]; lia.
  - apply Z.eqb_neq.
    pose proof (filter_length_le success rs). lia.
Qed.

Lemma print_summary_prints (rs : list entry) (t : tester W) :
  fst (print_summary W rs t) = inr tt /\
  results (snd (print_summary W rs t)) = results t /\
  machine (snd (print_summary W rs t)) = machine t.
Proof.
  revert t. induction rs as [|r rs IH]; intros t; [now cbn|].
  cbn [print_summary]. unfold_monad. cbv beta iota.
  match goal with
  | |- context [print_summary W rs ?T] => destruct (IH T) as (H1 & H2 & H3)
  end.
  now rewrite H1, H2, H3.
Qed.

Lemma print_summary_db (rs : list entry) (t : tester W) :
  test_db (snd (print_summary W rs t)) = test_db t.
Proof.
  revert t. induction rs as [|r rs IH]; intros t; [now cbn|].
  cbn [print_summary]. unfold_monad. cbv beta iota.
  match goal with
  | |- context [print_summary W rs ?T] => now rewrite (IH T)
  end.
Qed.

(** The suite never raises, and its verdict is that of its tests: run
    from results that hold no failure, [run_all_tests] returns [True]
    exactly when each of the five test methods, run in turn, returned
    [True]. *)
Theorem suite_verdict (t : tester W) :
  forallb success (results t) = true ->
  exists verdict : bool,
    fst (run_all_tests t) = inr verdict /\
    (verdict = true <->
     all_return_true tests
       (mkTester (machine t) (test_db t) (results t)
          (effects t ++ [Print "🧪 PostgreSQL Backend Integration Test Suite";
                         Print "=================================================="]))).
Proof.
  intros Hinit. unfold_suite. unfold_monad. cbv beta iota.
  cbn [machine test_db results effects].
  match goal with
  | |- context [run_tests tests ?T] =>
      destruct (run_tests_verdict tests tests_report T) as (new & Hok & Hres & Hiff);
      replace T with (mkTester (machine t) (test_db t) (results t)
          (effects t ++ [Print "🧪 PostgreSQL Backend Integration Test Suite";
                         Print "=================================================="]))
        in * by (now rewrite <- app_assoc)
  end.
  destruct (run_tests tests _) as [r t1]. cbn [fst snd results] in *. subst r.
  cbv beta iota. cbn [machine test_db results effects].
  match goal with
  | |- context [print_summary W ?rs ?T] =>
      destruct (print_summary_prints rs T) as (H1 & _ & _);
      destruct (print_summary W rs T) as [r2 t2]
  end.
  cbn [fst] in H1. subst r2. cbv beta iota.
  rewrite count_passed_all, Hres, forallb_app, Hinit. cbn [andb].
  destruct (forallb success new) eqn:Hnew; cbn [fst].
  - exists true. split; [reflexivity|]. split; [intros _; now apply Hiff | reflexivity].
  - exists false. split; [reflexivity|].
    split; [discriminate | intros H; apply Hiff in H; discriminate].
Qed.

Lemma running_timeout (t : tester W) (out err : captured) (w1 : W) :
  os_shell P "pg_isready -h localhost -p 5432" (machine t) = (TimedOut out err, w1) ->
  test_postgres_running t =
    (inl (AttributeError "'TimeoutExpired' object has no attribute 'returncode'"),
     mkTester w1 (test_db t) (results t)
       (effects t ++ [Print "
🔍 Testing PostgreSQL connectivity..."; Shell "pg_isready -h localhost -p 5432"])).
Proof.
  intros Hto. destruct t as [w db rs evs]. cbn [machine] in Hto.
  unfold_running. unfold_monad. step. rewrite Hto. step. unfold completed. step.
  now rewrite <- app_assoc.
Qed.

(** One turn of the loop over the methods, for a method that raises. *)
Lemma run_tests_raised (name : string) (m : T W bool)
      (rest : list (string * T W bool)) (t t1 : tester W) (e : exn) :
  m t = (inl e, t1) ->
  run_tests ((name, m) :: rest) t =
  run_tests rest
    (mkTester (machine t1) (test_db t1)
       (results t1 ++
        [mkEntry name false ("Test failed with exception: " ++ str_exn e) ""])
       (effects t1 ++
        [Print ("❌ FAIL" ++ " " ++ name ++ ": " ++
                "Test failed with exception: " ++ str_exn e)])).
Proof.
  intros Hm. unfold_run_tests. unfold_monad. rewrite Hm. cbv beta iota.
  cbn [negb andb String.eqb Ascii.eqb Bool.eqb machine test_db results effects].
  reflexivity.
Qed.

(** What [run_all_tests] returns and leaves in [self.results], read off
    the state the loop over the methods ends in. *)
Lemma suite_after_tests (t : tester W) :
  fst (run_all_tests t) =
    inr (forallb success (results (snd (run_tests tests (suite_start t))))) /\
  results (snd (run_all_tests t)) = results (snd (run_tests tests (suite_start t))) /\
  machine (snd (run_all_tests t)) = machine (snd (run_tests tests (suite_start t))) /\
  test_db (snd (run_all_tests t)) = test_db (snd (run_tests tests (suite_start t))).
Proof.
  unfold_suite. unfold_monad. cbv beta iota.
  cbn [machine test_db results effects].
  match goal with
  | |- context [run_tests tests ?T] =>
      replace T with (suite_start t)
        by (unfold suite_start; now rewrite <- app_assoc);
      destruct (run_tests_verdict tests tests_report (suite_start t))
        as (new & Hok & _)
  end.
  destruct (run_tests tests (suite_start t)) as [r t1].
  cbn [fst snd] in *. subst r.
  cbv beta iota. cbn [machine test_db results effects].
  match goal with
  | |- context [print_summary W ?rs ?T] =>
      destruct (print_summary_prints rs T) as (H1 & H2 & H3);
      assert (H4 : test_db (snd (print_summary W rs T)) = test_db T)
        by apply print_summary_db;
      destruct (print_summary W rs T) as [r2 t2]
  end.
  cbn [fst snd results machine test_db] in H1, H2, H3, H4. subst r2. cbv beta iota.
  rewrite count_passed_all.
  destruct (forallb success (results t1)) eqn:Hall;
    cbn [fst snd results machine test_db]; now rewrite H2, H3, H4.
Qed.

(** ** A command that does not return in time *)

(** When [pg_isready] runs into the timeout, [run_command] returns the
    [TimeoutExpired] object and reading its [returncode] raises: the suite
    logs the first test as failed under the name of the method, with the
    text of the [AttributeError], and returns [False]. *)
Theorem timeout_logged_as_exception (t : tester W) (out err : captured) (w1 : W) :
  os_shell P "pg_isready -h localhost -p 5432" (machine t) = (TimedOut out err, w1) ->
  fst (run_all_tests t) = inr false /\
  In (mkEntry "test_postgres_running" false
        "Test failed with exception: 'TimeoutExpired' object has no attribute 'returncode'"
        "")
     (results (snd (run_all_tests t))).
Proof.
  intros Hto.
  destruct (suite_after_tests t) as (Hfst & Hres & _).
  rewrite Hfst, Hres. clear Hfst Hres.
  unfold tests.
  rewrite (run_tests_raised _ _ _ (suite_start t) _ _
             (running_timeout (suite_start t) out err w1 Hto)).
  match goal with
  | |- context [run_tests ?l ?T] =>
      destruct (run_tests_verdict l) with (t := T) as (new & _ & Hnew & _);
      [ repeat constructor; cbn [snd];
        [ exact creation_reports | exact migrations_reports
        | exact graphql_reports | exact performance_reports ]
      | rewrite Hnew ]
  end.
  cbn [results]. rewrite !forallb_app. cbn [forallb success andb].
  rewrite andb_false_r. cbn [andb]. split; [reflexivity|].
  apply in_or_app. left. apply in_or_app. right. now left.
Qed.

(** ** What the methods leave alone *)

Section Only.

Variable ok : effect -> bool.

Lemma grows_refl (t : tester W) : grows ok t t.
Proof. split; [reflexivity|]. exists []. now rewrite app_nil_r. Qed.

Lemma grows_trans (t1 t2 t3 : tester W) :
  grows ok t1 t2 -> grows ok t2 t3 -> grows ok t1 t3.
Proof.
  intros (Hdb1 & m1 & He1 & Hok1) (Hdb2 & m2 & He2 & Hok2).
  split; [congruence|]. exists (m1 ++ m2)%list.
  rewrite He2, He1, <- app_assoc, forallb_app, Hok1, Hok2. now split.
Qed.

Lemma grows_event (t : tester W) (w : W) (ev : effect) :
  ok ev = true ->
  grows ok t (mkTester w (test_db t) (results t) (effects t ++ [ev])).
Proof.
  intros H. split; [reflexivity|]. exists [ev]. cbn. now rewrite H.
Qed.

Lemma only_ret {A : Type} (a : A) : only ok (t_ret W a).
Proof. intros t. apply grows_refl. Qed.

Lemma only_raise {A : Type} (e : exn) : only ok (@t_raise W A e).
Proof. intros t. apply grows_refl. Qed.

Lemma only_lift {A : Type} (r : exn + A) : only ok (t_lift W r).
Proof. intros t. apply grows_refl. Qed.

Lemma only_self_test_db : only ok (self_test_db W).
Proof. intros t. apply grows_refl. Qed.

Lemma only_self_results : only ok (self_results W).
Proof. intros t. apply grows_refl. Qed.

Lemma only_results_append (e : entry) : only ok (results_append W e).
Proof. intros t. split; [reflexivity|]. exists []. now rewrite app_nil_r. Qed.

Lemma only_print (text : string) : ok (Print text) = true -> only ok (print W text).
Proof. intros H t. now apply grows_event. Qed.

Lemma only_act {A : Type} (ev : effect) (op : W -> A * W) :
  ok ev = true -> only ok (act W ev op).
Proof.
  intros H t. unfold act. destruct (op (machine t)) as [a w'].
  now apply grows_event.
Qed.

Lemma only_act_exn {A : Type} (ev : effect) (op : W -> (exn + A) * W) :
  ok ev = true -> only ok (act_exn W ev op).
Proof.
  intros H t. unfold act_exn. destruct (op (machine t)) as [a w'].
  now apply grows_event.
Qed.

Lemma only_run_command (cmd : string) (check : bool) :
  ok (Shell cmd) = true -> only ok (run_command cmd check).
Proof.
  intros H t. unfold_monad. destruct (os_shell P cmd (machine t)) as [[cp|o e|e] w'];
    [destruct (check && negb (returncode cp =? 0))|..]; now apply grows_event.
Qed.

Lemma only_bind {A B : Type} (m : T W A) (f : A -> T W B) :
  only ok m -> (forall a : A, only ok (f a)) -> only ok (t_bind W m f).
Proof.
  intros Hm Hf t. unfold t_bind. pose proof (Hm t) as H1.
  destruct (m t) as [[e|a] t1]; cbn [snd] in *; [exact H1|].
  exact (grows_trans _ _ _ H1 (Hf a t1)).
Qed.

Lemma only_if {A : Type} (b : bool) (m1 m2 : T W A) :
  only ok m1 -> only ok m2 -> only ok (if b then m1 else m2).
Proof. now destruct b. Qed.

Lemma only_try_finally {A : Type} (body : T W A) (final : T W unit) :
  only ok body -> only ok final -> only ok (try_finally W body final).
Proof.
  intros Hb Hf t. unfold try_finally. pose proof (Hb t) as H1.
  destruct (body t) as [r t1]. pose proof (Hf t1) as H2.
  destruct (final t1) as [[e|u] t2]; cbn [snd] in *;
    exact (grows_trans _ _ _ H1 H2).
Qed.

Lemma only_try_except_class {A : Type} (cls : string) (body handler : T W A) :
  only ok body -> only ok handler -> only ok (try_except_class W cls body handler).
Proof.
  intros Hb Hh t. unfold try_except_class. pose proof (Hb t) as H1.
  destruct (body t) as [[[c text]|a] t1]; cbn [snd] in *; [|exact H1].
  destruct (String.eqb c cls); [|exact H1].
  exact (grows_trans _ _ _ H1 (Hh t1)).
Qed.

Lemma only_try_except_all {A : Type} (body : T W A) (handler : exn -> T W A) :
  only ok body -> (forall e : exn, only ok (handler e)) ->
  only ok (try_except_all W body handler).
Proof.
  intros Hb Hh t. unfold try_except_all. pose proof (Hb t) as H1.
  destruct (body t) as [[e|a] t1]; cbn [snd] in *; [|exact H1].
  exact (grows_trans _ _ _ H1 (Hh e t1)).
Qed.

Lemma only_log_result (name : string) (s : bool) (msg det : string) :
  (forall text : string, ok (Print text) = true) ->
  only ok (log_result name s msg det).
Proof.
  intros Hp. unfold log_result. cbv zeta.
  apply only_bind; [apply only_results_append|]. intros _.
  apply only_bind; [apply only_print, Hp|]. intros _.
  apply only_if; [apply only_print, Hp | apply only_ret].
Qed.

(** A resource taken by [m] and given back by [u] when [m] raises. *)
Lemma only_guarded {A B : Type} (m : T W A) (u : T W unit) (k : A -> T W B) :
  only ok m -> only ok u -> (forall a : A, only ok (k a)) ->
  only ok (fun t =>
             match m t with
             | (inl e, t') =>
                 match u t' with
                 | (inr _, t'') => (inl e, t'')
                 | (inl e', t'') => (inl e', t'')
                 end
             | (inr a, t') => k a t'
             end).
Proof.
  intros Hm Hu Hk t. pose proof (Hm t) as H1.
  destruct (m t) as [[e|a] t1]; cbn [snd] in *.
  - pose proof (Hu t1) as H2. destruct (u t1) as [[e'|x] t2]; cbn [snd] in *;
      exact (grows_trans _ _ _ H1 H2).
  - exact (grows_trans _ _ _ H1 (Hk a t1)).
Qed.

Lemma only_weaken {A : Type} (ok' : effect -> bool) (m : T W A) :
  (forall ev : effect, ok' ev = true -> ok ev = true) -> only ok' m -> only ok m.
Proof.
  intros Himp Hm t. destruct (Hm t) as (Hdb & more & He & Hok).
  split; [exact Hdb|]. exists more. split; [exact He|].
  rewrite forallb_forall in *. auto.
Qed.

End Only.

Ltac only_with tac :=
  repeat first
    [ tac
    | apply only_bind; [|intros ?]
    | apply only_if
    | apply only_ret | apply only_raise | apply only_lift
    | apply only_print | apply only_log_result | apply only_run_command
    | apply only_act | apply only_act_exn
    | apply only_self_test_db | apply only_self_results
    | apply only_try_finally | apply only_try_except_class
    | apply only_try_except_all; [|intros ?]
    | apply only_guarded; [| |intros ?]
    | match goal with
      | |- only _ (match ?x with _ => _ end) => destruct x
      end
    | reflexivity
    | intros ?; reflexivity ].

Ltac only_tac := only_with fail.

Lemma query_loop_only (queries : list (string * string)) :
  forall acc : bool, only shell_or_print (query_loop queries acc).
Proof.
  induction queries as [|[name query] rest IH]; intros acc; [apply only_ret|].
  unfold_loop. only_with ltac:(apply IH).
Qed.

(** The first two tests and the loop over the queries talk to the
    database and to the server through shell commands alone: they start
    no process, write and remove no file, and leave [self.test_db] as it
    is. *)
Theorem first_tests_only_run_commands :
  only shell_or_print test_postgres_running /\
  only shell_or_print test_database_creation /\
  forall (queries : list (string * string)) (acc : bool),
    only shell_or_print (query_loop queries acc).
Proof.
  split; [|split].
  - unfold_running. only_tac.
  - unfold_creation. only_tac.
  - exact query_loop_only.
Qed.

Lemma migrations_only : only any_effect test_migrations.
Proof. unfold_migrations. only_tac. Qed.

Lemma graphql_only : only any_effect test_graphql_server_setup.
Proof.
  unfold_graphql.
  only_with ltac:(apply only_weaken with (ok' := shell_or_print);
                  [reflexivity | apply query_loop_only]).
Qed.

Lemma performance_only : only any_effect test_performance.
Proof. unfold_performance. only_tac. Qed.

Lemma tests_only : Forall (fun nm => only any_effect (snd nm)) tests.
Proof.
  unfold tests. repeat (apply Forall_cons; [cbn [snd]|]); [..|apply Forall_nil].
  - unfold_running. only_tac.
  - unfold_creation. only_tac.
  - exact migrations_only.
  - exact graphql_only.
  - exact performance_only.
Qed.

Lemma run_tests_only (methods : list (string * T W bool)) :
  Forall (fun nm => only any_effect (snd nm)) methods ->
  only any_effect (run_tests methods).
Proof.
  induction 1 as [|[name m] rest Hm _ IH]; [apply only_ret|].
  cbn [snd] in Hm. unfold_run_tests.
  only_with ltac:(first [exact IH | exact Hm]).
Qed.

Lemma print_summary_only (rs : list entry) : only any_effect (print_summary W rs).
Proof.
  induction rs as [|r rs IH]; [apply only_ret|].
  cbn [print_summary]. cbv zeta. only_with ltac:(exact IH).
Qed.

Lemma announces_print {A : Type} (banner : string) (k : T W A) :
  only any_effect k -> announces banner (t_bind W (print W banner) (fun _ => k)).
Proof.
  intros Hk t. unfold t_bind, print.
  match goal with
  | |- context [k ?T] => destruct (Hk T) as (_ & more & He & _)
  end.
  rewrite He. cbn [effects]. exists more. now rewrite <- app_assoc.
Qed.

Lemma tests_announce :
  Forall2 (fun b nm => announces b (snd nm) /\ only any_effect (snd nm)) banners tests.
Proof.
  pose proof tests_only as H.
  repeat (apply Forall_cons_iff in H; destruct H as [? H]).
  unfold banners, tests.
  repeat (apply Forall2_cons; [split; [|assumption]|]); [..|apply Forall2_nil]; cbn [snd].
  - unfold_running. apply announces_print. only_tac.
  - unfold_creation. apply announces_print. only_tac.
  - unfold_migrations. apply announces_print. only_tac.
  - unfold_graphql. apply announces_print.
    only_with ltac:(apply only_weaken with (ok' := shell_or_print);
                    [reflexivity | apply query_loop_only]).
  - unfold_performance. apply announces_print. only_tac.
Qed.

Lemma printed_in_order_prefix (texts : list string) (p l : list effect) :
  printed_in_order texts l -> printed_in_order texts (p ++ l).
Proof.
  destruct texts as [|b bs]; [trivial|].
  intros (before & after & -> & H). exists (p ++ before)%list, after.
  now rewrite app_assoc.
Qed.

Lemma printed_in_order_suffix (texts : list string) :
  forall l s : list effect,
    printed_in_order texts l -> printed_in_order texts (l ++ s).
Proof.
  induction texts as [|b bs IH]; intros l s; [trivial|].
  intros (before & after & -> & H). exists before, (after ++ s)%list.
  split; [now rewrite <- app_assoc|]. now apply IH.
Qed.

Lemma run_tests_banners (texts : list string) (methods : list (string * T W bool)) :
  Forall2 (fun b nm => announces b (snd nm) /\ only any_effect (snd nm)) texts methods ->
  forall t : tester W,
  exists more : list effect,
    effects (snd (run_tests methods t)) = (effects t ++ more)%list /\
    printed_in_order texts more.
Proof.
  induction 1 as [|b [name m] bs rest [Ha _] _ IH]; intros t.
  - exists []. cbn. now rewrite app_nil_r.
  - cbn [snd] in Ha. destruct (Ha t) as (more1 & He1).
    unfold_run_tests. unfold_monad.
    destruct (m t) as [[e|v] t1]; cbn [snd] in He1; cbv beta iota;
      cbn [negb andb String.eqb Ascii.eqb Bool.eqb machine test_db results effects].
    + match goal with
      | |- context [run_tests rest ?T] => destruct (IH T) as (more2 & He2 & Hp)
      end.
      cbn [effects] in He2. rewrite He2, He1.
      repeat rewrite <- app_assoc. cbn [app].
      eexists. split; [reflexivity|].
      exists []. eexists. split; [reflexivity|].
      apply printed_in_order_prefix.
      match goal with
      | |- printed_in_order _ (?x :: more2) =>
          now apply (printed_in_order_prefix bs [x] more2)
      end.
    + destruct (IH t1) as (more2 & He2 & Hp).
      rewrite He2, He1. repeat rewrite <- app_assoc. cbn [app].
      eexists. split; [reflexivity|].
      exists []. eexists. split; [reflexivity|].
      now apply printed_in_order_prefix.
Qed.

(** What [run_all_tests] prints after the loop over the methods. *)
Lemma suite_effects (t : tester W) :
  exists tail : list effect,
    effects (snd (run_all_tests t)) =
      (effects (snd (run_tests tests (suite_start t))) ++ tail)%list.
Proof.
  unfold_suite. unfold_monad. cbv beta iota.
  cbn [machine test_db results effects].
  match goal with
  | |- context [run_tests tests ?T] =>
      replace T with (suite_start t)
        by (unfold suite_start; now rewrite <- app_assoc);
      destruct (run_tests_verdict tests tests_report (suite_start t))
        as (new & Hok & _)
  end.
  destruct (run_tests tests (suite_start t)) as [r t1].
  cbn [fst snd] in *. subst r.
  cbv beta iota. cbn [machine test_db results effects].
  match goal with
  | |- context [print_summary W ?rs ?T] =>
      destruct (print_summary_prints rs T) as (H1 & _);
      destruct (print_summary_only rs T) as (_ & more & He & _);
      destruct (print_summary W rs T) as [r2 t2]
  end.
  cbn [fst snd effects] in H1, He. subst r2. cbv beta iota.
  destruct (count_passed (results t1) =? Z.of_nat (List.length (results t1)));
    cbn [fst snd effects]; rewrite He; repeat rewrite <- app_assoc;
    eexists; reflexivity.
Qed.

(** ** [test_graphql_server_setup] *)

(** The [finally] of the test after a server that did start. *)
Lemma finally_stops_server {A : Type} (body : T W A) (pid : Z) (file : string)
      (t : tester W) :
  only no_cleanup body ->
  (forall w : W, fst (os_terminate P pid w) = inr tt) ->
  (forall w : W, exists code : Z, fst (os_wait P pid w) = inr code) ->
  exists mid : list effect,
    effects
      (snd (try_finally W body
              (t_bind W (act_exn W (Terminate pid) (os_terminate P pid))
                 (fun _ =>
                    t_bind W (act_exn W (Wait pid) (os_wait P pid))
                      (fun _ => act_exn W (Unlink file) (os_unlink P file))))
              t)) =
      (effects t ++ mid ++ [Terminate pid; Wait pid; Unlink file])%list /\
    forallb no_cleanup mid = true.
Proof.
  intros Hbody Hterm Hwait. unfold try_finally.
  destruct (Hbody t) as (_ & mid & He & Hok).
  destruct (body t) as [r t1]. cbn [snd] in He.
  unfold t_bind, act_exn.
  pose proof (Hterm (machine t1)) as H1.
  destruct (os_terminate P pid (machine t1)) as [[e|[]] w1];
    cbn [fst] in H1; [discriminate H1|].
  cbn [machine test_db results effects].
  destruct (Hwait w1) as (code & H2).
  destruct (os_wait P pid w1) as [[e|c] w2]; cbn [fst] in H2; [discriminate H2|].
  cbn [machine test_db results effects].
  exists mid. split; [|exact Hok].
  destruct (os_unlink P file w2) as [[e|u] w3]; cbn [snd effects];
    rewrite He; now repeat rewrite <- app_assoc.
Qed.

(** Once the server process is started, it is stopped on every way out
    of the test, an exception in the queries included: when [terminate]
    and [wait] do not raise, the test ends with [terminate], [wait] and
    the [os.unlink] of the script, in this order, and does none of the
    three before. *)
Theorem server_always_stopped (t : tester W) (file : string) (w1 : W) (pid : Z)
        (w2 : W) :
  os_tempfile P ".py" (graphql_server_code P) (machine t) = (inr file, w1) ->
  os_popen P [sys_executable P; file] w1 = (inr pid, w2) ->
  (forall w : W, fst (os_terminate P pid w) = inr tt) ->
  (forall w : W, exists code : Z, fst (os_wait P pid w) = inr code) ->
  exists mid : list effect,
    effects (snd (test_graphql_server_setup t)) =
      (effects t ++
       [Print "
🚀 Testing GraphQL server setup..."; TempFile ".py" (graphql_server_code P);
        Popen [sys_executable P; file]]
       ++ mid ++ [Terminate pid; Wait pid; Unlink file])%list /\
    forallb no_cleanup mid = true.
Proof.
  intros Htmp Hpopen Hterm Hwait. destruct t as [w db rs evs].
  cbn [machine test_db results effects] in *.
  unfold_graphql. unfold t_bind at 1. unfold print at 1.
  cbn [machine test_db results effects]. unfold t_bind at 1.
  unfold act_exn at 1. cbn [machine test_db results effects]. rewrite Htmp.
  unfold act_exn at 1. cbn [machine test_db results effects]. rewrite Hpopen.
  match goal with
  | |- context [try_finally W ?b _ ?T] =>
      destruct (finally_stops_server b pid file T) as (mid & He & Hok);
      [ only_with ltac:(apply only_weaken with (ok' := shell_or_print);
                        [ intros [] H; (exact H || reflexivity)
                        | apply query_loop_only ])
      | exact Hterm | exact Hwait | ]
  end.
  exists mid. split; [|exact Hok].
  rewrite He. cbn [effects]. now repeat rewrite <- app_assoc.
Qed.

Lemma dict_has_key (d : list (string * json)) (key : string) (v : json) :
  dict_getitem d key = inr v ->
  existsb (fun kv => String.eqb key (fst kv)) d = true.
Proof.
  induction d as [|[k x] d IH]; cbn; [discriminate|].
  rewrite (String.eqb_sym key k). destruct (String.eqb k key); cbn; auto.
Qed.

(** The loop over the queries takes a reply with the key "errors" (what
    the handler writes for an unknown query, a failed query and an
    exception) as a failure of the query: the entry holds the text of the
    list of errors, the loop goes on with the other queries, and whatever
    they give it does not return [True]. *)
Theorem errors_reply_fails_query (name query : string) (rest : list (string * string))
        (acc : bool) (t : tester W) (cp : CompletedProcess) (w1 : W)
        (d : list (string * json)) (errors : json) :
  os_shell P ("curl -s -X POST -H 'Content-Type: application/json' -d '"
              ++ query ++ "' http://localhost:8080/graphql") (machine t)
    = (Exited cp, w1) ->
  returncode cp = 0 ->
  py_loads P (stdout cp) = inr (JObj d) ->
  dict_getitem d "errors" = inr errors ->
  fst (query_loop ((name, query) :: rest) acc t) <> inr true /\
  exists printed : list effect,
    query_loop ((name, query) :: rest) acc t =
    query_loop rest false
      (mkTester w1 (test_db t)
         (results t ++
          [mkEntry ("GraphQL " ++ name) false "GraphQL query returned errors"
             (py_str P errors)])
         (effects t ++
          Shell ("curl -s -X POST -H 'Content-Type: application/json' -d '"
                 ++ query ++ "' http://localhost:8080/graphql") :: printed)).
Proof.
  intros Hsh Hrc Hload Hget. destruct t as [w db rs evs].
  cbn [machine test_db results effects] in *.
  unfold_loop. unfold_monad. step. rewrite Hsh. step. unfold completed. step.
  rewrite Hrc. step. rewrite Hload. step. unfold contains, getitem.
  rewrite (dict_has_key d "errors" errors Hget). step. rewrite Hget. step.
  destruct (py_str P errors =? "")%string; step.
  all: match goal with
       | |- context [query_loop ?r false ?T] =>
           destruct (query_loop_reports r false T) as (new & _ & Htrue & _)
       end.
  all: split; [intros H; destruct (Htrue H); discriminate|].
  all: repeat rewrite <- app_assoc; cbn [app]; eexists; reflexivity.
Qed.

(** When the server process cannot be started, nothing is there to stop:
    the test removes the script and raises, the exception of [Popen]
    unless [os.unlink] raises another one. *)
Theorem popen_failure_removes_script (t : tester W) (file : string) (w1 : W)
        (e : exn) (w2 : W) :
  os_tempfile P ".py" (graphql_server_code P) (machine t) = (inr file, w1) ->
  os_popen P [sys_executable P; file] w1 = (inl e, w2) ->
  fst (test_graphql_server_setup t) =
    match fst (os_unlink P file w2) with
    | inl e' => inl e'
    | inr _ => inl e
    end /\
  snd (test_graphql_server_setup t) =
    mkTester (snd (os_unlink P file w2)) (test_db t) (results t)
      (effects t ++
       [Print "
🚀 Testing GraphQL server setup..."; TempFile ".py" (graphql_server_code P);
        Popen [sys_executable P; file]; Unlink file]).
Proof.
  intros Htmp Hpopen. destruct t as [w db rs evs].
  cbn [machine test_db results effects] in *.
  unfold_graphql. unfold_monad. step. rewrite Htmp. step. rewrite Hpopen. step.
  destruct (os_unlink P file w2) as [[e'|u] w3]; step;
    (split; [reflexivity|]); now repeat rewrite <- app_assoc.
Qed.

(** A server that has exited after the three seconds fails the test
    before any query is sent: the test does not return [True] and runs
    no shell command. *)
Theorem server_exit_fails_test (t : tester W) (file : string) (w1 : W) (pid : Z)
        (w2 : W) (code : Z) (w3 : W) :
  os_tempfile P ".py" (graphql_server_code P) (machine t) = (inr file, w1) ->
  os_popen P [sys_executable P; file] w1 = (inr pid, w2) ->
  os_poll P pid (os_sleep P 3 w2) = (Some code, w3) ->
  fst (test_graphql_server_setup t) <> inr true /\
  exists more : list effect,
    effects (snd (test_graphql_server_setup t)) = (effects t ++ more)%list /\
    forallb sends_no_query more = true.
Proof.
  intros Htmp Hpopen Hpoll. destruct t as [w db rs evs].
  cbn [machine test_db results effects] in *.
  unfold_graphql. unfold_monad. step. rewrite Htmp. step. rewrite Hpopen. step.
  rewrite Hpoll. tester_paths.
  all: cbn [fst snd effects]; (split; [discriminate|]).
  all: repeat rewrite <- app_assoc; cbn [app]; eexists; split; reflexivity.
Qed.

(** ** [test_performance] *)

(** The times measured are printed and nothing else: the test returns
    [True] exactly when the two commands exit with 0, however long they
    ran. *)
Theorem performance_true_iff (t : tester W) :
  fst (test_performance t) = inr true <->
  exists cp1 w1 cp2 w2,
    os_shell P ("psql " ++ test_db t ++ " -c " ++ quoted concurrent_test_sql)
      (snd (os_time P (machine t))) = (Exited cp1, w1) /\
    returncode cp1 = 0 /\
    os_shell P ("psql " ++ test_db t ++ " -c " ++ quoted "SELECT COUNT(*) FROM posts;")
      (snd (os_time P (snd (os_time P w1)))) = (Exited cp2, w2) /\
    returncode cp2 = 0.
Proof.
  destruct t as [w db rs evs]. cbn [machine test_db].
  unfold_performance. unfold_monad. unfold completed. split.
  - tester_paths; try discriminate; intros _.
    repeat match goal with
           | H : negb (_ =? 0) = false |- _ =>
               apply negb_false_iff, Z.eqb_eq in H
           end.
    do 4 eexists.
    split; [reflexivity|]. split; [eassumption|].
    repeat match goal with
           | H : os_time P _ = _ |- _ => rewrite H; cbv beta iota
           end.
    split; eassumption.
  - intros (cp1 & w1 & cp2 & w2 & H1 & Hc1 & H2 & Hc2). step.
    destruct (os_time P w) as [c0 wa]. cbn [snd] in H1. step. rewrite H1. step.
    destruct (os_time P w1) as [c1 wb]. cbn [snd] in H2. step. rewrite Hc1. step.
    destruct (os_time P wb) as [c2 wc]. cbn [snd] in H2. step. rewrite H2. step.
    destruct (os_time P w2) as [c3 wd]. step. rewrite Hc2. reflexivity.
Qed.

(** ** [cleanup] *)

(** [cleanup] does not read what [dropdb] answers: whatever its exit
    code, and also when it runs into the timeout, the database is
    reported as dropped. *)
Theorem cleanup_reports_drop (t : tester W) (r : shell_result) (w1 : W) :
  os_shell P ("dropdb " ++ test_db t) (machine t) = (r, w1) ->
  (forall e : exn, r <> Broke e) ->
  cleanup t =
    (inr tt,
     mkTester w1 (test_db t) (results t)
       (effects t ++
        [Print "
🧹 Cleaning up test resources..."; Shell ("dropdb " ++ test_db t);
         Print ("Dropped test database '" ++ test_db t ++ "'")])).
Proof.
  intros Hsh Hr. destruct t as [w db rs evs].
  cbn [machine test_db results effects] in *.
  unfold_cleanup. unfold_monad. step. rewrite Hsh.
  destruct r as [cp|o e|e]; [| |now destruct (Hr e)]; step;
    now repeat rewrite <- app_assoc.
Qed.

(** ** The suite *)

(** A test that fails or raises does not stop the suite: whatever the
    machine answers, [run_all_tests] starts the five tests, in the order
    of the list. *)
Theorem suite_starts_every_test (t : tester W) :
  exists more : list effect,
    effects (snd (run_all_tests t)) = (effects t ++ more)%list /\
    printed_in_order banners more.
Proof.
  destruct (suite_effects t) as (tail & Htail).
  destruct (run_tests_banners banners tests tests_announce (suite_start t))
    as (more & He & Hp).
  rewrite Htail, He. unfold suite_start. cbn [effects].
  repeat rewrite <- app_assoc. eexists. split; [reflexivity|].
  apply printed_in_order_prefix with (p := [_; _]).
  now apply printed_in_order_suffix.
Qed.

(** ** [main] *)

(** [main] always leaves through [sys.exit]: with status 0 when the suite
    returned [True] and 1 when it returned [False], unless the command of
    [cleanup] could not be started, whose exception then takes the place
    of the exit.  [cleanup] runs after the suite on every way out, and
    the database it drops is the one named in [__init__]. *)
Theorem main_exit_status (w : W) :
  exists verdict : bool,
    fst (run_all_tests (init W w)) = inr verdict /\
    fst (main w) =
      match fst (os_shell P "dropdb codegen_backend_test"
                   (machine (snd (run_all_tests (init W w))))) with
      | Broke e => inl e
      | _ => inl (SystemExit (if verdict then 0 else 1))
      end /\
    exists more : list effect,
      effects (snd (main w)) =
        (effects (snd (run_all_tests (init W w))) ++
         Print "
🧹 Cleaning up test resources..." :: Shell "dropdb codegen_backend_test" :: more)%list.
Proof.
  destruct (suite_after_tests (init W w)) as (Hfst & _ & _ & Hdb).
  destruct (run_tests_only tests tests_only (suite_start (init W w))) as (Hdb2 & _).
  rewrite Hdb2 in Hdb. cbn [suite_start init test_db] in Hdb.
  eexists. split; [exact Hfst|].
  unfold_main. unfold try_finally, t_bind, t_raise.
  destruct (run_all_tests (init W w)) as [r t1]. cbn [fst snd] in *. subst r.
  unfold_cleanup. unfold_monad. destruct t1 as [w1 db rs evs].
  cbn [test_db machine results effects] in *. subst db.
  cbv beta iota. cbn [test_db machine results effects String.append].
  destruct (os_shell P "dropdb codegen_backend_test" w1) as [[cp|o e|e] w2];
    cbv beta iota; cbn [fst snd andb effects];
    (split; [reflexivity|]); repeat rewrite <- app_assoc; cbn [app];
    eexists; reflexivity.
Qed.


End TesterProperties.

(** * The handler on concrete requests *)

Import Ref.

(** The users query of the integration test on seeded tables. *)
Lemma users_query_data_witness :
  Ref.do_POST users_request (fresh seeded) =
    (inr tt,
     mkState seeded [users_argv]
       (ok_response
          (dq "{'data': {'users': [{'id': 1, 'email': 'admin@codegen.com', 'name': 'Codegen Admin'}]}}"))).
Proof.
  refine (eq_trans
    (proj1 (users_query_data World subprocess_run bytes_decode json_loads json_dumps
              users_request "{ users { id name email } }" (fresh seeded)
              (mkCompleted 0 users_rows "") seeded _ _ _ _ _ _)
           (JArr [JObj [("id", JInt 1); ("email", JStr "admin@codegen.com");
                        ("name", JStr "Codegen Admin")]]) _ _ _) _).
  all: try (vm_compute; reflexivity).
  all: vm_compute; discriminate.
Defined.

(** The posts query of the integration test on seeded tables, and the
    command run for the query that names both tables. *)
Lemma posts_query_data_witness :
  Ref.do_POST posts_request (fresh seeded) =
    (inr tt,
     mkState seeded [posts_argv]
       (ok_response
          (dq "{'data': {'posts': [{'id': 1, 'title': 'Welcome to Codegen', 'content': 'This is a test post for the GraphQL API', 'published': true, 'author': {'name': 'Codegen Admin', 'email': 'admin@codegen.com'}}]}}"))) /\
  calls (snd (Ref.do_POST users_posts_request (fresh seeded))) = [users_argv].
Proof.
  split.
  - refine (eq_trans
      (proj1 (proj1 (posts_query_data World subprocess_run bytes_decode json_loads json_dumps
                posts_request "{ posts { id title author { name } } }" (fresh seeded)
                (mkCompleted 0 posts_rows "") seeded _ _ _) _ _ _)
             (JArr [JObj [("id", JInt 1); ("title", JStr "Welcome to Codegen");
                          ("content", JStr "This is a test post for the GraphQL API");
                          ("published", JBool true);
                          ("author", JObj [("name", JStr "Codegen Admin");
                                           ("email", JStr "admin@codegen.com")])]])
             _ _ _) _).
    all: try (vm_compute; reflexivity).
    all: vm_compute; discriminate.
  - refine (eq_trans
      (proj2 (posts_query_data World subprocess_run bytes_decode json_loads json_dumps
                users_posts_request "{ users { id posts { title } } }" (fresh seeded)
                (mkCompleted 0 posts_rows "") seeded _ _ _) _) _).
    all: vm_compute; reflexivity.
Defined.

(** C2 as stated fails: the query [{ users { id posts { title } } }]
    contains "posts", yet the users template is run and the body is the
    users data, which is the encoding of no [{"data": {"posts": R}}]. *)
Lemma posts_query_naming_users_counterexample :
  Ref.query_of users_posts_request = Some (JStr "{ users { id posts { title } } }") /\
  str_contains "posts" "{ users { id posts { title } } }" = true /\
  Ref.do_POST users_posts_request (fresh seeded) =
    (inr tt,
     mkState seeded [users_argv]
       (ok_response
          (dq "{'data': {'users': [{'id': 1, 'email': 'admin@codegen.com', 'name': 'Codegen Admin'}]}}"))) /\
  (forall R : json,
     body_of (wfile (snd (Ref.do_POST users_posts_request (fresh seeded)))) <>
       json_dumps (data_response "posts" R)).
Proof.
  split; [vm_compute; reflexivity|].
  split; [vm_compute; reflexivity|].
  split; [vm_compute; reflexivity|].
  intros R.
  replace (body_of (wfile (snd (Ref.do_POST users_posts_request (fresh seeded)))))
    with (dq "{'data': {'users': [{'id': 1, 'email': 'admin@codegen.com', 'name': 'Codegen Admin'}]}}")
    by (vm_compute; reflexivity).
  cbn. discriminate.
Qed.

(** A POST to [/api]. *)
Lemma other_path_not_found_witness :
  path other_path_request <> "/graphql" /\
  Ref.do_POST other_path_request (fresh seeded) =
    (inr tt, mkState seeded [] [SendResponse 404; EndHeaders]) /\
  body_of [SendResponse 404; EndHeaders] = "".
Proof.
  assert (H : path other_path_request <> "/graphql") by (vm_compute; discriminate).
  split; [exact H|]. split; [|reflexivity].
  exact (proj1 (other_path_not_found World subprocess_run bytes_decode json_loads
                  json_dumps other_path_request (fresh seeded) H)).
Defined.

(** C3 as stated fails: an OPTIONS request to [/api] is answered 200. *)
Lemma options_other_path_counterexample :
  path other_path_request <> "/graphql" /\
  status_codes (response (fst (Ref.handle_one_request OPTIONS other_path_request seeded)))
    = [200].
Proof. split; [vm_compute; discriminate | vm_compute; reflexivity]. Qed.

(** C4 fails on the code: a POST to [/graphql] without a [Content-Length]
    header, or with one that is not a number, makes [int] raise before the
    [try] block; the exception leaves [do_POST] and no response is sent. *)
Theorem content_length_error_escapes :
  path no_length_request = "/graphql" /\
  Ref.handle_one_request POST no_length_request seeded =
    (mkOutcome
       (Some (TypeError
          "int() argument must be a string, a bytes-like object or a real number, not 'NoneType'"))
       [] [],
     seeded) /\
  path bad_length_request = "/graphql" /\
  Ref.handle_one_request POST bad_length_request seeded =
    (mkOutcome
       (Some (ValueError "invalid literal for int() with base 10: 'forty'")) [] [],
     seeded).
Proof.
  split; [reflexivity|]. split; [vm_compute; reflexivity|].
  split; [reflexivity|]. vm_compute; reflexivity.
Qed.

(** The users query when the database is missing: [psql] exits with 2. *)
Lemma backend_failure_reported_witness :
  Ref.do_POST users_request (fresh no_database) =
    (inr tt,
     mkState no_database [users_argv]
       (ok_response (dq "{'errors': [{'message': 'Database query failed'}]}"))).
Proof.
  refine (eq_trans
    (backend_failure_reported World subprocess_run bytes_decode json_loads json_dumps
       users_request "{ users { id name email } }" Users (fresh no_database)
       2 "" "psql: error: FATAL:  database codegen_backend_test does not exist"
       no_database _ _ _ _ _) _).
  all: try (vm_compute; reflexivity).
  lia.
Defined.

(** A body without a [query] field: the text is [""]. *)
Lemma unknown_query_witness :
  Ref.query_of empty_object_request = Some (JStr "") /\
  Ref.do_POST empty_object_request (fresh seeded) =
    (inr tt,
     mkState seeded []
       (ok_response (dq "{'errors': [{'message': 'Unknown query'}]}"))).
Proof.
  split; [vm_compute; reflexivity|].
  refine (eq_trans
    (unknown_query World subprocess_run bytes_decode json_loads json_dumps
       empty_object_request "" (fresh seeded) _ _ _ _) _).
  all: vm_compute; reflexivity.
Defined.

(** The users query in two worlds that differ in what [psql] writes on its
    standard error and in the posts table; three requests in a row. *)
Lemma dispatcher_deterministic_stateless_witness :
  (fst (Ref.handle_one_request POST users_request seeded) =
     fst (Ref.handle_one_request POST users_request seeded_noisy) /\
   body_of (response (fst (Ref.handle_one_request POST users_request seeded))) =
     body_of (response (fst (Ref.handle_one_request POST users_request seeded_noisy)))) /\
  Ref.serve_forever
    [(POST, users_request); (OPTIONS, other_path_request); (POST, users_request)] seeded =
    (map (fun r => fst (Ref.handle_one_request (fst r) (snd r) seeded))
         [(POST, users_request); (OPTIONS, other_path_request); (POST, users_request)],
     seeded).
Proof.
  pose proof (dispatcher_deterministic_stateless
                World subprocess_run bytes_decode json_loads json_dumps) as [H1 [_ H3]].
  split.
  - apply (H1 users_request "{ users { id name email } }" seeded seeded_noisy
              seeded seeded_noisy
              (mkCompleted 0 users_rows "")
              (mkCompleted 0 users_rows "NOTICE:  table is being vacuumed"));
      vm_compute; reflexivity.
  - apply H3; intros w0; reflexivity.
Defined.

(** Two different queries that stop at "users", one on seeded tables and
    one without a database. *)
Lemma backend_command_static_witness :
  commands (fst (Ref.handle_one_request POST users_request seeded)) =
    commands (fst (Ref.handle_one_request POST users_posts_request no_database)) /\
  commands (fst (Ref.handle_one_request POST users_request seeded)) = [users_argv].
Proof.
  refine (backend_command_static World subprocess_run bytes_decode json_loads json_dumps
            users_request users_posts_request
            "{ users { id name email } }" "{ users { id posts { title } } }"
            seeded no_database _ _ _ _ _).
  all: vm_compute; reflexivity.
Defined.

(** The body written for the users query on empty tables. *)
Lemma written_body_envelope_witness :
  exists v : json,
    dq "{'data': {'users': []}}" = json_dumps v /\
    envelope World subprocess_run json_loads empty_tables v.
Proof.
  apply (written_body_envelope World subprocess_run bytes_decode json_loads json_dumps
           users_request empty_tables).
  vm_compute. do 4 right. left. reflexivity.
Defined.

(** C9 as stated fails: when [psql] prints a JSON object, the body maps
    "users" to that object, which is no list. *)
Lemma written_data_not_a_list_counterexample :
  body_of (response (fst (Ref.handle_one_request POST users_request object_output))) =
    dq "{'data': {'users': {'count': 2}}}" /\
  json_loads (dq "{'data': {'users': {'count': 2}}}") =
    inr (data_response "users" (JObj [("count", JInt 2)])) /\
  documented_shape (data_response "users" (JObj [("count", JInt 2)])) = false.
Proof.
  split; [vm_compute; reflexivity|].
  split; [vm_compute; reflexivity|reflexivity].
Qed.

(** A query that names the users table in capitals. *)
Lemma keywords_case_sensitive_witness :
  Ref.do_POST capital_request (fresh seeded) =
    (inr tt,
     mkState seeded []
       (ok_response (dq "{'errors': [{'message': 'Unknown query'}]}"))).
Proof.
  refine (eq_trans
    (keywords_case_sensitive World subprocess_run bytes_decode json_loads json_dumps
       capital_request "{ Users { id name } }" (fresh seeded) _ _ _ _ _) _).
  all: try (vm_compute; reflexivity).
  left. vm_compute. reflexivity.
Defined.

(** ** The builtins on small inputs *)

Example strip_psql_output :
  strip users_rows = dq "[{'id':1,'email':'admin@codegen.com','name':'Codegen Admin'}]" /\
  strip " null
" = "null" /\
  strip " 

" = "".
Proof. repeat split. Qed.

(** A no-break space (U+00A0, two bytes) is stripped, a plus sign is not. *)
Example strip_unicode_space :
  strip (String (chr 194) (String (chr 160) "[] +")) = "[] +".
Proof. reflexivity. Qed.

Example int_literals :
  int (Some "38") = inr 38 /\ int (Some " 1_000 ") = inr 1000 /\
  int (Some "-1") = inr (-1) /\ int (Some "+7") = inr 7 /\
  int (Some "1__0") = inl (ValueError "invalid literal for int() with base 10: '1__0'") /\
  int (Some "") = inl (ValueError "invalid literal for int() with base 10: ''").
Proof. repeat split. Qed.

(** The false positive and the miss the design notes name. *)
Example substring_tests :
  str_contains "posts" "{ postsecondary { id } }" = true /\
  str_contains "posts" "{ discussions { id } }" = false /\
  str_contains "users" "{ Users { id } }" = false /\
  str_contains "" "" = true.
Proof. repeat split. Qed.

(** The keyword a query stops at: the first of the chain, and none for
    another casing. *)
Example keyword_of_queries :
  keyword_of "{ users { id name email } }" = Some Users /\
  keyword_of "{ posts { id title author { name } } }" = Some Posts /\
  keyword_of "{ users { id posts { title } } }" = Some Users /\
  keyword_of "{ Users { id } }" = None /\
  keyword_of "{ USERS { id } }" = None /\
  keyword_of "{ Posts { id } }" = None /\
  keyword_of "" = None.
Proof. repeat split. Qed.

(** [in] on the other JSON types. *)
Example contains_other_types :
  contains "users" (JArr [JStr "users"]) = inr true /\
  contains "users" (JArr [JStr "all users"]) = inr false /\
  contains "users" (JObj [("users", JNull)]) = inr true /\
  contains "users" JNull =
    inl (TypeError "argument of type 'NoneType' is not iterable").
Proof. repeat split. Qed.

Example read_lengths :
  rfile_read "{}  tail" 2 = inr "{}" /\
  rfile_read "{}" 10 = inr "{}" /\
  rfile_read "{}" 0 = inr "" /\
  rfile_read "{}" (-1) = inr "{}" /\
  rfile_read "{}" (-2) = inl (ValueError "read length must be non-negative or -1").
Proof. repeat split. Qed.

Example header_lookup :
  headers_getitem [("Host", "localhost:8080"); ("content-length", "38")] "Content-Length"
    = Some "38" /\
  headers_getitem [("Host", "localhost:8080")] "Content-Length" = None.
Proof. repeat split. Qed.

(** ** The soft errors *)

(** The query the interface gives as its example of an unknown one. *)
Example unknown_field_query :
  Ref.handle_one_request POST unknown_request seeded =
    (mkOutcome None []
       (ok_response (dq "{'errors': [{'message': 'Unknown query'}]}")),
     seeded).
Proof. vm_compute. reflexivity. Qed.

(** The posts query on empty tables. *)
Example posts_on_empty_tables :
  Ref.handle_one_request POST posts_request empty_tables =
    (mkOutcome None [posts_argv] (ok_response (dq "{'data': {'posts': []}}")),
     empty_tables).
Proof. vm_compute. reflexivity. Qed.

(** ** Failures inside the [try] block *)

(** A body that is not JSON is answered 500 with the text of the
    decoding error. *)
Example not_json_body_500 :
  Ref.handle_one_request POST not_json_request seeded =
    (mkOutcome None []
       (error_response_500
          (dq "{'errors': [{'message': 'Expecting property name enclosed in double quotes: line 1 column 3 (char 2)'}]}")),
     seeded).
Proof. vm_compute. reflexivity. Qed.

(** So is an output of [psql] that is not JSON, after the command ran. *)
Example undecodable_output_500 :
  Ref.handle_one_request POST users_request seeded_twice =
    (mkOutcome None [users_argv]
       (error_response_500
          (dq "{'errors': [{'message': 'Expecting value: line 1 column 35 (char 34)'}]}")),
     seeded_twice).
Proof. vm_compute. reflexivity. Qed.

(** A body that is JSON but no object, and a [query] that is no text. *)
Example list_body_500 :
  response (fst (Ref.handle_one_request POST (post "/graphql" "[]") seeded)) =
    error_response_500
      (json_dumps (errors_response "'list' object has no attribute 'get'")) /\
  response (fst (Ref.handle_one_request POST (post "/graphql" (dq "{'query': 5}")) seeded)) =
    error_response_500
      (json_dumps (errors_response "argument of type 'int' is not iterable")).
Proof. split; vm_compute; reflexivity. Qed.

(** * More requests *)

(** The users query runs the users template, and nothing else. *)
Lemma command_needs_keyword_witness :
  exists (v : json) (k : keyword),
    path users_request = "/graphql" /\
    Ref.query_of users_request = Some v /\
    selected v = inr (Some k) /\
    commands (fst (Ref.handle_one_request POST users_request seeded)) = [template k].
Proof.
  apply (command_needs_keyword World subprocess_run bytes_decode json_loads json_dumps
           users_request seeded users_argv).
  vm_compute. left. reflexivity.
Defined.

(** A body that is not JSON. *)
Lemma request_failure_500_witness :
  Ref.do_POST not_json_request (fresh seeded) =
    (inr tt,
     mkState seeded []
       (error_response_500
          (dq "{'errors': [{'message': 'Expecting property name enclosed in double quotes: line 1 column 3 (char 2)'}]}"))).
Proof.
  refine (eq_trans
    (request_failure_500 World subprocess_run bytes_decode json_loads json_dumps
       not_json_request (fresh seeded) 27 "{ users { id name email } }"
       (Exn "JSONDecodeError"
          "Expecting property name enclosed in double quotes: line 1 column 3 (char 2)")
       _ _ _ _) _).
  all: vm_compute; reflexivity.
Defined.

(** Two users printed over two lines: the command has run, the answer is
    the 500 of the decoder. *)
Lemma undecodable_output_answer_witness :
  Ref.do_POST users_request (fresh seeded_twice) =
    (inr tt,
     mkState seeded_twice [users_argv]
       (error_response_500
          (dq "{'errors': [{'message': 'Expecting value: line 1 column 35 (char 34)'}]}"))).
Proof.
  refine (eq_trans
    (undecodable_output_answer World subprocess_run bytes_decode json_loads json_dumps
       users_request "{ users { id name email } }" Users (fresh seeded_twice)
       (mkCompleted 0 two_users_rows "") seeded_twice
       (Exn "JSONDecodeError" "Expecting value: line 1 column 35 (char 34)")
       _ _ _ _ _ _ _ _) _).
  all: try (vm_compute; reflexivity).
  all: vm_compute; discriminate.
Defined.

(** No [psql] on the machine. *)
Lemma subprocess_error_answer_witness :
  Ref.do_POST users_request (fresh psql_missing) =
    (inr tt,
     mkState psql_missing [users_argv]
       (error_response_500
          (json_dumps
             (errors_response "[Errno 2] No such file or directory: 'psql'")))).
Proof.
  refine (eq_trans
    (subprocess_error_answer World subprocess_run bytes_decode json_loads json_dumps
       users_request "{ users { id name email } }" Users (fresh psql_missing)
       (Exn "FileNotFoundError" "[Errno 2] No such file or directory: 'psql'")
       psql_missing _ _ _ _) _).
  all: vm_compute; reflexivity.
Defined.

(** The start of a second request on the same connection is not read. *)
Lemma bytes_past_length_ignored_witness :
  Ref.do_POST
    (mkRequest "/graphql" (headers users_request)
       (rfile users_request ++ "POST /graphql HTTP/1.1"))
    (fresh seeded) =
  Ref.do_POST (mkRequest "/graphql" (headers users_request) (rfile users_request))
    (fresh seeded).
Proof.
  apply (bytes_past_length_ignored World subprocess_run bytes_decode json_loads
           json_dumps "/graphql" (headers users_request) (rfile users_request)
           "POST /graphql HTTP/1.1" (fresh seeded)).
  vm_compute. reflexivity.
Defined.

(** * The integration test on concrete machines *)

(** PostgreSQL is not running. *)
Lemma postgres_down_stops_test_witness :
  test_postgres_running Box.World Z Box.platform (init Box.World Box.postgres_down) =
    (inr false,
     mkTester Box.postgres_down "codegen_backend_test"
       [mkEntry "PostgreSQL Service" false "PostgreSQL is not running"
          "Run 'sudo service postgresql start' or './setup_postgres.sh'"]
       [Print "
🔍 Testing PostgreSQL connectivity...";
        Shell "pg_isready -h localhost -p 5432";
        Print "❌ FAIL PostgreSQL Service: PostgreSQL is not running";
        Print "   Details: Run 'sudo service postgresql start' or './setup_postgres.sh'"]).
Proof.
  refine (eq_trans
    (postgres_down_stops_test Box.World Z Box.platform
       (init Box.World Box.postgres_down)
       (mkCompleted 2 "localhost:5432 - no response
" "") Box.postgres_down _ _) _).
  - vm_compute. reflexivity.
  - vm_compute. discriminate.
  - reflexivity.
Defined.

(** On a first run [dropdb] fails and the test passes. *)
Lemma database_creation_true_iff_witness :
  fst (test_database_creation Box.World Z Box.platform (init Box.World Box.first_run))
    = inr true.
Proof.
  refine (proj2
    (database_creation_true_iff Box.World Z Box.platform
       (init Box.World Box.first_run)
       (Box.exits 1 ""
          "dropdb: error: database removal failed: ERROR:  database does not exist")
       Box.first_run _ _) _).
  - vm_compute. reflexivity.
  - intros e. discriminate.
  - exists (mkCompleted 0 "" ""), Box.first_run, (mkCompleted 0 "" ""), Box.first_run.
    split; [vm_compute; reflexivity|]. split; [reflexivity|].
    split; [vm_compute; reflexivity | reflexivity].
Defined.

(** The migration file of a run is removed. *)
Lemma migration_file_unlinked_witness :
  exists mid : list effect,
    effects (snd (test_migrations Box.World Z Box.platform (init Box.World Box.quiet))) =
      ([Print "
🔄 Testing database migrations..."; TempFile ".sql" migration_sql]
       ++ mid ++ [Unlink "/tmp/tmpq7x2.sql"])%list /\
    forallb shell_or_print mid = true.
Proof.
  apply (migration_file_unlinked Box.World Z Box.platform (init Box.World Box.quiet)
           "/tmp/tmpq7x2.sql" Box.quiet).
  vm_compute. reflexivity.
Defined.

(** Twelve users, and a listing after which [psql] exits with 1: the
    migration test passes. *)
Lemma migrations_pass_witness :
  fst (test_migrations Box.World Z Box.platform (init Box.World Box.twelve_users))
    = inr true /\
  results (snd (test_migrations Box.World Z Box.platform
                  (init Box.World Box.twelve_users))) =
    [mkEntry "Database Migration" true "Successfully ran database migration" "";
     mkEntry "Migration Verification" true "Tables created successfully" "";
     mkEntry "Sample Data" true "Sample data inserted successfully" ""].
Proof.
  refine (migrations_pass Box.World Z Box.platform (init Box.World Box.twelve_users)
            "/tmp/tmpq7x2.sql"
            Box.twelve_users Box.twelve_users Box.twelve_users Box.twelve_users
            Box.twelve_users
            (mkCompleted 0 "" "")
            (mkCompleted 1 " public | posts | table | postgres
 public | users | table | postgres
" "")
            (mkCompleted 0 "    12
" "") _ _ _ _ _ _ _ _ _ _).
  all: vm_compute; reflexivity.
Defined.

(** A machine on which every test passes. *)
Lemma suite_verdict_witness :
  exists verdict : bool,
    fst (run_all_tests Box.World Z Box.platform (init Box.World Box.server_with_data))
      = inr verdict /\
    (verdict = true <->
     all_return_true (tests Box.World Z Box.platform)
       (suite_start (init Box.World Box.server_with_data))).
Proof.
  apply (suite_verdict Box.World Z Box.platform (init Box.World Box.server_with_data)).
  reflexivity.
Defined.

(** [pg_isready] hangs: the first entry of the suite is the exception. *)
Lemma timeout_logged_as_exception_witness :
  fst (run_all_tests Box.World Z Box.platform (init Box.World Box.postgres_hangs))
    = inr false /\
  In (mkEntry "test_postgres_running" false
        "Test failed with exception: 'TimeoutExpired' object has no attribute 'returncode'"
        "")
     (results (snd (run_all_tests Box.World Z Box.platform
                      (init Box.World Box.postgres_hangs)))).
Proof.
  apply (timeout_logged_as_exception Box.World Z Box.platform
           (init Box.World Box.postgres_hangs) CapNone CapNone Box.postgres_hangs).
  vm_compute. reflexivity.
Defined.

(** The server is stopped after queries that were answered with errors. *)
Lemma server_always_stopped_witness :
  exists mid : list effect,
    effects (snd (test_graphql_server_setup Box.World Z Box.platform
                    (init Box.World Box.server_with_errors))) =
      ([Print "
🚀 Testing GraphQL server setup..."; TempFile ".py" "import json";
        Popen ["/usr/bin/python3"; "/tmp/tmpq7x2.py"]]
       ++ mid ++ [Terminate 4242; Wait 4242; Unlink "/tmp/tmpq7x2.py"])%list /\
    forallb no_cleanup mid = true.
Proof.
  apply (server_always_stopped Box.World Z Box.platform
           (init Box.World Box.server_with_errors) "/tmp/tmpq7x2.py"
           Box.server_with_errors 4242 Box.server_with_errors).
  - vm_compute. reflexivity.
  - vm_compute. reflexivity.
  - intros w. reflexivity.
  - intros w. exists (-15). reflexivity.
Defined.

(** The reply of the handler to a failed query, read by the client. *)
Lemma errors_reply_fails_query_witness :
  fst (query_loop Box.World Z Box.platform test_queries true
         (init Box.World Box.server_with_errors)) <> inr true /\
  exists printed : list effect,
    query_loop Box.World Z Box.platform test_queries true
      (init Box.World Box.server_with_errors) =
    query_loop Box.World Z Box.platform (tl test_queries) false
      (mkTester Box.server_with_errors "codegen_backend_test"
         [mkEntry "GraphQL Users Query" false "GraphQL query returned errors"
            "[{'message': 'Database query failed'}]"]
         (Shell Box.curl_users :: printed)).
Proof.
  apply (errors_reply_fails_query Box.World Z Box.platform
           "Users Query" (dq "{'query': '{ users { id name email } }'}")
           (tl test_queries) true (init Box.World Box.server_with_errors)
           (mkCompleted 0 (dq "{'errors': [{'message': 'Database query failed'}]}") "")
           Box.server_with_errors
           [("errors", JArr [JObj [("message", JStr "Database query failed")]])]
           (JArr [JObj [("message", JStr "Database query failed")]])).
  all: vm_compute; reflexivity.
Defined.

(** No interpreter: the script is removed and the exception of [Popen]
    leaves the test. *)
Lemma popen_failure_removes_script_witness :
  fst (test_graphql_server_setup Box.World Z Box.platform_without_python
         (init Box.World Box.quiet)) =
    inl (Exn "FileNotFoundError"
           "[Errno 2] No such file or directory: '/usr/bin/python3'") /\
  snd (test_graphql_server_setup Box.World Z Box.platform_without_python
         (init Box.World Box.quiet)) =
    mkTester Box.quiet "codegen_backend_test" []
      [Print "
🚀 Testing GraphQL server setup..."; TempFile ".py" "import json";
       Popen ["/usr/bin/python3"; "/tmp/tmpq7x2.py"]; Unlink "/tmp/tmpq7x2.py"].
Proof.
  apply (popen_failure_removes_script Box.World Z Box.platform_without_python
           (init Box.World Box.quiet) "/tmp/tmpq7x2.py" Box.quiet
           (Exn "FileNotFoundError"
              "[Errno 2] No such file or directory: '/usr/bin/python3'")
           Box.quiet).
  all: vm_compute; reflexivity.
Defined.

(** The port is taken: the server has exited when it is polled. *)
Lemma server_exit_fails_test_witness :
  fst (test_graphql_server_setup Box.World Z Box.platform
         (init Box.World Box.server_crashed)) <> inr true /\
  exists more : list effect,
    effects (snd (test_graphql_server_setup Box.World Z Box.platform
                    (init Box.World Box.server_crashed))) = more /\
    forallb sends_no_query more = true.
Proof.
  apply (server_exit_fails_test Box.World Z Box.platform
           (init Box.World Box.server_crashed) "/tmp/tmpq7x2.py"
           Box.server_crashed 4242 Box.server_crashed 1 Box.server_crashed).
  all: vm_compute; reflexivity.
Defined.

(** A database that cannot be dropped is reported as dropped. *)
Lemma cleanup_reports_drop_witness :
  cleanup Box.World Z Box.platform (init Box.World Box.database_in_use) =
    (inr tt,
     mkTester Box.database_in_use "codegen_backend_test" []
       [Print "
🧹 Cleaning up test resources..."; Shell "dropdb codegen_backend_test";
        Print "Dropped test database 'codegen_backend_test'"]).
Proof.
  refine (eq_trans
    (cleanup_reports_drop Box.World Z Box.platform
       (init Box.World Box.database_in_use)
       (Box.exits 1 "" "dropdb: error: database is being accessed by other users")
       Box.database_in_use _ _) _).
  - vm_compute. reflexivity.
  - intros e. discriminate.
  - reflexivity.
Defined.
